(** * Market intelligence patterns: request dispatch, error taxonomy,
      response envelopes, the WITS client and the trade-flow cache

    A shallow embedding of the TypeScript sources

    - [src/types/api.types.ts], [src/types/market-intelligence.types.ts]
    - [src/utils/error.utils.ts], [src/utils/response.utils.ts]
    - [src/services/market-intelligence/wits-client.ts]
    - [src/services/market-intelligence/trade-flow-service.ts]
    - [src/services/market-intelligence/handler.ts]

    JavaScript values are modelled by the types the sources declare for
    them: a property typed [string] that may be absent at run time is an
    [option string] ([None] is [undefined]); HTTP statuses, years and clock
    readings (milliseconds since the epoch) are [Z]; payload numbers are
    binary64 floats.  Strings are byte strings and [toUpperCase] is the ASCII
    case mapping.  Functions that read the clock, touch the cache of the
    trade-flow service or call out over HTTP are written in a state and
    exception monad over an explicit [World]; an [async] function that is
    awaited is run to completion in place.  The trace of a world records,
    as a spy in a test would, every entry into a private branch of the
    handler, every call of a method of the WITS client and every request
    sent; recording these events is the only part of the embedding without
    a counterpart in the sources. *)

From Stdlib Require Import ZArith Ascii String PrimFloat.
From stdpp Require Import gmap strings list fin_maps pretty.

Set Warnings "-inexact-float".
Local Open Scope Z_scope.

(** ** JavaScript basics *)

(** [!!s] for a string: only the empty string is falsy. *)
Definition truthy (s : string) : bool := negb (bool_decide (s = "")).

(** [!!x] for a property typed [string] that may be [undefined]. *)
Definition truthy_prop (x : option string) : bool :=
  match x with
  | Some s => truthy s
  | None => false
  end.

(** [!!n] for an integral number: [0] is falsy. *)
Definition truthy_int (n : Z) : bool := negb (n =? 0).

(** [!!x] for a number: [0], [-0] and [NaN] are falsy. *)
Definition truthy_number (x : float) : bool :=
  negb (PrimFloat.is_zero x || PrimFloat.is_nan x).

(** [pre ++ sub ++ post]: [sub] occurs in [s]. *)
Definition contains (s sub : string) : Prop :=
  ∃ pre post : string, s = pre +:+ sub +:+ post.

(** ASCII letters [a]..[z] are moved to [A]..[Z]; every other character is
    kept. *)
Definition upper_char (c : ascii) : ascii :=
  let n := N_of_ascii c in
  if ((97 <=? n) && (n <=? 122))%N then ascii_of_N (n - 32) else c.

Fixpoint toUpperCase (s : string) : string :=
  match s with
  | EmptyString => EmptyString
  | String c rest => String (upper_char c) (toUpperCase rest)
  end.

(** A string that holds an instant.  [IsoTime ms] is the string
    [new Date(ms).toISOString()]; [new Date(IsoTime ms).getTime()] is [ms]
    again.  [OtherText s] is any other string a caller may supply. *)
Inductive TimeString : Type :=
  | IsoTime (ms : Z)
  | OtherText (s : string).

Definition truthy_time (t : TimeString) : bool :=
  match t with
  | IsoTime _ => true
  | OtherText s => truthy s
  end.

(** An [Error] that is not part of the taxonomy.  [stack] is fixed when the
    error is constructed: the header [name: message] followed by the call
    frames. *)
Record JsError : Type := mkJsError {
  je_name : string;
  je_message : string;
  je_frames : string
}.

Definition je_header (e : JsError) : string :=
  if bool_decide (je_message e = "") then je_name e
  else if bool_decide (je_name e = "") then je_message e
  else je_name e +:+ ": " +:+ je_message e.

Definition je_stack (e : JsError) : string := je_header e +:+ je_frames e.

(** A number that is an integer of magnitude at most [2^53 - 1]. *)
Record SafeInteger : Type := mkSafeInteger {
  si_value : Z;
  si_safe : Is_true (Z.abs si_value <=? 9007199254740991)
}.

(** Some of the values a program can throw besides errors: [undefined],
    [null], booleans, safe integers, strings, an ordinary object (one that
    inherits [Object.prototype.toString] unchanged) and a bare object, one
    with no conversion to a primitive, such as [Object.create(null)]. *)
Inductive JsValue : Type :=
  | JUndefined
  | JNull
  | JBool (b : bool)
  | JNumber (n : SafeInteger)
  | JString (s : string)
  | JObject
  | JBareObject.

(** The [TypeError] the engine throws when an object has no conversion to
    a primitive. *)
Definition no_primitive_TypeError : JsError :=
  {| je_name := "TypeError";
     je_message := "Cannot convert object to primitive value";
     je_frames := "" |}.

(** [String(v)]: the string, or the error the conversion throws. *)
Definition String_of (v : JsValue) : JsError + string :=
  match v with
  | JUndefined => inr "undefined"
  | JNull => inr "null"
  | JBool true => inr "true"
  | JBool false => inr "false"
  | JNumber n => inr (pretty (si_value n))
  | JString s => inr s
  | JObject => inr "[object Object]"
  | JBareObject => inl no_primitive_TypeError
  end.

(** ** [api.types.ts] *)

Inductive DataCompleteness : Type := complete | partial | incomplete.

Record ResponseMetadata : Type := mkResponseMetadata {
  data_completeness : DataCompleteness;
  last_updated : TimeString;
  source : string;
  confidence_score : option float
}.

(** [Partial<ResponseMetadata>]: every property may be absent, [None].  A
    property that is present has a value of its declared type. *)
Record PartialMetadata : Type := mkPartialMetadata {
  pm_data_completeness : option DataCompleteness;
  pm_last_updated : option TimeString;
  pm_source : option string;
  pm_confidence_score : option float
}.

Definition no_metadata : PartialMetadata :=
  mkPartialMetadata None None None None.

Record ApiResponse (T : Type) : Type := mkApiResponse {
  status : Z;
  data : T;
  message : option string;
  metadata : ResponseMetadata
}.
Arguments mkApiResponse {T} _ _ _ _.
Arguments status {T} _.
Arguments data {T} _.
Arguments message {T} _.
Arguments metadata {T} _.

Inductive ErrorCode : Type :=
  | VALIDATION_ERROR
  | NOT_FOUND
  | UNAUTHORIZED
  | FORBIDDEN
  | INTERNAL_SERVER_ERROR
  | SERVICE_UNAVAILABLE
  | EXTERNAL_API_ERROR.

(** ** [market-intelligence.types.ts] *)

Module MarketIntelligenceRequestType.
Definition TRADE_FLOW : string := "trade_flow".
Definition TARIFF : string := "tariff".
Definition MARKET_SIZE : string := "market_size".
Definition BUYERS : string := "buyers".
Definition COMPETITIVE_LANDSCAPE : string := "competitive_landscape".
End MarketIntelligenceRequestType.

(** A request object as the handler receives it: the union of the
    properties the five variants declare, each of which may be missing. *)
Record MarketIntelligenceParams : Type := mkParams {
  type : option string;
  hs_code : option string;
  market : option string;
  year : option Z;
  origin : option string;
  destination : option string;
  product_category : option string;
  industry : option string
}.

Definition isTradeFlowParams (params : MarketIntelligenceParams) : bool :=
  bool_decide (type params = Some MarketIntelligenceRequestType.TRADE_FLOW).

Definition isTariffParams (params : MarketIntelligenceParams) : bool :=
  bool_decide (type params = Some MarketIntelligenceRequestType.TARIFF).

Definition isMarketSizeParams (params : MarketIntelligenceParams) : bool :=
  bool_decide (type params = Some MarketIntelligenceRequestType.MARKET_SIZE).

Definition isBuyersParams (params : MarketIntelligenceParams) : bool :=
  bool_decide (type params = Some MarketIntelligenceRequestType.BUYERS).

Definition isCompetitiveLandscapeParams
    (params : MarketIntelligenceParams) : bool :=
  bool_decide
    (type params = Some MarketIntelligenceRequestType.COMPETITIVE_LANDSCAPE).

Record Exporter : Type := mkExporter {
  country : string;
  exporter_share : float
}.

Record TradeFlowData : Type := mkTradeFlowData {
  import_value_usd : float;
  export_value_usd : float;
  growth_rate : float;
  top_exporters : list Exporter;
  import_volume : option float
}.

Record TradeAgreement : Type := mkTradeAgreement {
  agreement_name : string;
  benefits : string
}.

Record TariffData : Type := mkTariffData {
  tariff_rate : float;
  quota_restrictions : option string;
  trade_agreements : list TradeAgreement
}.

Record MarketSizeData : Type := mkMarketSizeData {
  market_value_usd : string;
  market_growth_rate : string;
  popular_categories : list string
}.

Record Buyer : Type := mkBuyer {
  buyer_name : string;
  contact : string;
  size_class : string;
  interests : list string
}.

Record BuyersData : Type := mkBuyersData { buyers : list Buyer }.

Record Competitor : Type := mkCompetitor {
  competitor_name : string;
  competitor_share : float;
  competitor_origin : string;
  strengths : list string
}.

Record PricePoints : Type := mkPricePoints {
  low : string;
  average : string;
  premium : string
}.

Record CompetitiveLandscapeData : Type := mkCompetitiveLandscapeData {
  competitors : list Competitor;
  price_points : PricePoints
}.

(** The union of the five payload types. *)
Inductive MarketIntelligenceData : Type :=
  | OfTradeFlow (d : TradeFlowData)
  | OfTariff (d : TariffData)
  | OfMarketSize (d : MarketSizeData)
  | OfBuyers (d : BuyersData)
  | OfCompetitiveLandscape (d : CompetitiveLandscapeData).

(** ** Types of [wits-client.ts] *)

Record WitsTradeFlowParams : Type := mkWitsTradeFlowParams {
  tfp_reporter : option string;
  tfp_partner : option string;
  tfp_productCode : option string;
  tfp_year : option Z
}.

Inductive TradeFlowDirection : Type := Export | Import.

Record WitsTradeFlowResponse : Type := mkWitsTradeFlowResponse {
  reporter : string;
  partner : string;
  productCode : string;
  response_year : Z;
  tradeValue : float;
  netWeight : option float;
  quantity : option float;
  tradeFlow : TradeFlowDirection
}.

Record WitsTariffParams : Type := mkWitsTariffParams {
  tar_reporter : option string;
  tar_partner : option string;
  tar_productCode : option string;
  tar_year : option Z
}.

Record WitsQuotas : Type := mkWitsQuotas {
  isApplied : bool;
  quota_details : option string
}.

Record WitsAgreement : Type := mkWitsAgreement {
  wa_name : string;
  wa_rate : float
}.

Record WitsTariffResponse : Type := mkWitsTariffResponse {
  tariff_reporter : string;
  tariff_partner : string;
  tariff_productCode : string;
  tariff_year : Z;
  simpleAverage : float;
  weightedAverage : float;
  quotas : WitsQuotas;
  tradeAgreements : list WitsAgreement
}.

(** The query object handed to [client.get]. *)
Record Query : Type := mkQuery {
  q_reporter : string;
  q_partner : string;
  q_productCode : string;
  q_year : Z;
  q_format : string
}.

(** The body of a failed response, [error.response.data as any]: [null]
    (or [undefined]), a text body that is not JSON ([""] when the body is
    empty), or a JSON object, of which the interceptor reads the [message]
    property ([None] when the object has none). *)
Inductive Body : Type :=
  | BodyNull
  | BodyText (s : string)
  | BodyObject (message : option string).

Definition truthy_body (b : Body) : bool :=
  match b with
  | BodyNull => false
  | BodyText s => truthy s
  | BodyObject _ => true
  end.

Record AxiosResponse : Type := mkAxiosResponse {
  response_status : Z;
  response_data : Body
}.

Record AxiosError : Type := mkAxiosError {
  axios_message : string;
  response : option AxiosResponse
}.

(** How a request ends: the promise resolves with [response.data], or is
    rejected with an [AxiosError]. *)
Inductive AxiosOutcome (A : Type) : Type :=
  | Resolved (response_data : A)
  | Rejected (error : AxiosError).
Arguments Resolved {A} _.
Arguments Rejected {A} _.

(** ** [error.utils.ts]: the taxonomy *)

(** The values stored in a [details] record. *)
Inductive DetailValue : Type :=
  | DParams (params : MarketIntelligenceParams)
  | DText (s : string)
  | DBody (b : Body)
  | DNumber (n : Z).

(** [Record<string, any>], as the object literal lists its properties. *)
Definition Details : Type := list (string * DetailValue).

Inductive ErrorClass : Type :=
  | ApiErrorClass
  | ValidationErrorClass
  | NotFoundErrorClass
  | UnauthorizedErrorClass
  | ForbiddenErrorClass
  | InternalServerErrorClass
  | ServiceUnavailableErrorClass
  | ExternalApiErrorClass.

#[global] Instance ErrorClass_eq_dec : EqDecision ErrorClass.
Proof. solve_decision. Defined.

(** An instance of [ApiError] or of one of its subclasses; [error_class] is
    the prototype the constructors leave on the object.  The [name]
    property is read by no function of the program and is left out. *)
Record ApiError : Type := mkApiError {
  error_class : ErrorClass;
  error_message : string;
  error_status : Z;
  error_code : ErrorCode;
  error_details : option Details
}.

(** The constructor of the base class, run for [new C(...)]. *)
Definition new_ApiError (c : ErrorClass) (message : string) (status : Z)
    (code : ErrorCode) (details : option Details) : ApiError :=
  mkApiError c message status code details.

Definition ValidationError (message : string) (details : option Details)
    : ApiError :=
  new_ApiError ValidationErrorClass message 400 VALIDATION_ERROR details.

Definition NotFoundError (message : string) (details : option Details)
    : ApiError :=
  new_ApiError NotFoundErrorClass message 404 NOT_FOUND details.

Definition UnauthorizedError (message : string) (details : option Details)
    : ApiError :=
  new_ApiError UnauthorizedErrorClass message 401 UNAUTHORIZED details.

Definition ForbiddenError (message : string) (details : option Details)
    : ApiError :=
  new_ApiError ForbiddenErrorClass message 403 FORBIDDEN details.

Definition InternalServerError (message : string) (details : option Details)
    : ApiError :=
  new_ApiError InternalServerErrorClass message 500 INTERNAL_SERVER_ERROR
    details.

Definition ServiceUnavailableError (message : string)
    (details : option Details) : ApiError :=
  new_ApiError ServiceUnavailableErrorClass message 503 SERVICE_UNAVAILABLE
    details.

Definition ExternalApiError (message : string) (details : option Details)
    : ApiError :=
  new_ApiError ExternalApiErrorClass message 502 EXTERNAL_API_ERROR details.

(** [e instanceof ValidationError], [e instanceof ExternalApiError]. *)
Definition is_ValidationError (e : ApiError) : bool :=
  bool_decide (error_class e = ValidationErrorClass).

Definition is_ExternalApiError (e : ApiError) : bool :=
  bool_decide (error_class e = ExternalApiErrorClass).

(** Whatever a [throw] statement can raise. *)
Inductive Thrown : Type :=
  | ThrownApiError (e : ApiError)
  | ThrownError (e : JsError)
  | ThrownValue (v : JsValue).

(** The literal [null] of [ApiErrorResponse.data]. *)
Inductive Null : Type := null.

Record ApiErrorResponse : Type := mkApiErrorResponse {
  er_status : Z;
  er_data : Null;
  er_message : string;
  er_error_code : option ErrorCode;
  er_details : option Details;
  er_metadata : option ResponseMetadata
}.

(** ** The world the program runs in *)

Record CacheItem : Type := mkCacheItem {
  item_data : TradeFlowData;
  (** the instant whose ISO string the item carries *)
  item_timestamp : Z
}.

Inductive Branch : Type :=
  | TradeFlowBranch
  | TariffBranch
  | MarketSizeBranch
  | BuyersBranch
  | CompetitiveLandscapeBranch.

(** What an observer of a run can see: which private branch of the handler
    was entered, which method of the WITS client was called, which request
    went out. *)
Inductive Event : Type :=
  | BranchEntered (b : Branch) (params : MarketIntelligenceParams)
  | WitsGetTradeFlow (params : WitsTradeFlowParams)
  | WitsGetTariff (params : WitsTariffParams)
  | HttpGet (path : string) (query : Query).

(** The mutable state: the [cache] field of the trade-flow service, how
    often the clock has been read, and the events so far (oldest first). *)
Record World : Type := mkWorld {
  cache : gmap string CacheItem;
  ticks : nat;
  trace : list Event
}.

(** What the program cannot control: the clock (its [n]-th reading, counted
    from [0]), the
    calendar year of an instant in local time, and the outcome of a request
    to each of the two endpoints, given how many events preceded it. *)
Record Env : Type := mkEnv {
  (** when [response.utils.ts] was loaded *)
  moduleLoaded : Z;
  clock : nat → Z;
  getFullYear : Z → Z;
  tradeFlowEndpoint : nat → Query → AxiosOutcome WitsTradeFlowResponse;
  tariffEndpoint : nat → Query → AxiosOutcome WitsTariffResponse
}.

Inductive Completion (A : Type) : Type :=
  | Return (a : A)
  | Throw (t : Thrown).
Arguments Return {A} _.
Arguments Throw {A} _.

(** A computation: from a world to a completion and the world it leaves. *)
Definition Js (A : Type) : Type := World → Completion A * World.

#[global] Instance Js_ret : MRet Js := λ A a w, (Return a, w).

#[global] Instance Js_bind : MBind Js := λ A B k m w,
  match m w with
  | (Return a, w') => k a w'
  | (Throw t, w') => (Throw t, w')
  end.

Definition throw {A} (t : Thrown) : Js A := λ w, (Throw t, w).

(** [throw new C(...)] for a class of the taxonomy. *)
Definition throw_api {A} (e : ApiError) : Js A := throw (ThrownApiError e).

(** [Date.now()] and [new Date()]: one reading of the clock. *)
Definition now (env : Env) : Js Z :=
  fun w => (Return (clock env (ticks w)),
            mkWorld (cache w) (S (ticks w)) (trace w)).

Definition emit (e : Event) : Js unit :=
  fun w => (Return tt, mkWorld (cache w) (ticks w) (trace w ++ [e])).

Definition cache_get (key : string) : Js (option CacheItem) :=
  fun w => (Return (cache w !! key), w).

Definition cache_set (key : string) (item : CacheItem) : Js unit :=
  fun w => (Return tt, mkWorld (<[key := item]> (cache w)) (ticks w) (trace w)).

Definition cache_clear : Js unit :=
  fun w => (Return tt, mkWorld ∅ (ticks w) (trace w)).

(** The value a run returns, if it returns. *)
Definition returned {A} (r : Completion A * World) : option A :=
  match r with
  | (Return a, _) => Some a
  | (Throw _, _) => None
  end.

(** What a run throws, if it throws. *)
Definition thrown {A} (r : Completion A * World) : option Thrown :=
  match r with
  | (Return _, _) => None
  | (Throw t, _) => Some t
  end.

(** ** [error.utils.ts]: conversion to an error envelope *)

Module ErrorUtils.

(** [ApiError.prototype.toResponse] *)
Definition toResponse (env : Env) (this : ApiError) : Js ApiErrorResponse :=
  t ← now env;
  mret {| er_status := error_status this;
         er_data := null;
         er_message := error_message this;
         er_error_code := Some (error_code this);
         er_details := error_details this;
         er_metadata := Some {| data_completeness := incomplete;
                                last_updated := IsoTime t;
                                source := "Error";
                                confidence_score := None |} |}.

Definition handleError (env : Env) (error : Thrown) : Js ApiErrorResponse :=
  match error with
  | ThrownApiError e => toResponse env e
  | ThrownError e =>
      toResponse env
        (InternalServerError (je_message e)
           (Some [("original_error", DText (je_stack e))]))
  | ThrownValue v =>
      match String_of v with
      | inr text =>
          toResponse env
            (InternalServerError "An unexpected error occurred"
               (Some [("original_error", DText text)]))
      | inl e => throw (ThrownError e)
      end
  end.

End ErrorUtils.

(** ** [response.utils.ts] *)

Module ResponseUtils.

Record Options : Type := mkOptions {
  opt_status : option Z;
  opt_message : option string;
  opt_metadata : option PartialMetadata
}.

(** [{}], also the default of the [options] parameter. *)
Definition no_options : Options := mkOptions None None None.

Definition defaultMetadata (env : Env) : ResponseMetadata :=
  {| data_completeness := complete;
     last_updated := IsoTime (moduleLoaded env);
     source := "API";
     confidence_score := None |}.

(** [{...base, ...over}], where the properties that [over] has hold
    values. *)
Definition spread (base : ResponseMetadata) (over : PartialMetadata)
    : ResponseMetadata :=
  {| data_completeness :=
       default (data_completeness base) (pm_data_completeness over);
     last_updated := default (last_updated base) (pm_last_updated over);
     source := default (source base) (pm_source over);
     confidence_score :=
       match pm_confidence_score over with
       | Some c => Some c
       | None => confidence_score base
       end |}.

(** [metadata.last_updated || new Date().toISOString()] *)
Definition last_updated_or_now (env : Env) (metadata : PartialMetadata)
    : Js TimeString :=
  match pm_last_updated metadata with
  | Some t => if truthy_time t then mret t
              else (ms ← now env; mret (IsoTime ms))
  | None => ms ← now env; mret (IsoTime ms)
  end.

Definition createSuccessResponse {T} (env : Env) (data : T)
    (options : Options) : Js (ApiResponse T) :=
  let status := default 200 (opt_status options) in
  let message := opt_message options in
  let metadata := default no_metadata (opt_metadata options) in
  stamp ← last_updated_or_now env metadata;
  mret {| status := status;
          data := data;
          message := if truthy_prop message then message else None;
          metadata :=
            let merged := spread (defaultMetadata env) metadata in
            {| data_completeness := data_completeness merged;
               last_updated := stamp;
               source := source merged;
               confidence_score := confidence_score merged |} |}.

Definition createPartialResponse {T} (env : Env) (data : T)
    (options : Options) : Js (ApiResponse T) :=
  let given := default no_metadata (opt_metadata options) in
  createSuccessResponse env data
    {| opt_status := opt_status options;
       opt_message := opt_message options;
       opt_metadata :=
         Some {| pm_data_completeness := Some partial;
                 pm_last_updated := pm_last_updated given;
                 pm_source := pm_source given;
                 pm_confidence_score := pm_confidence_score given |} |}.

(** A [Date] object: its time value is an instant, or [NaN] for an
    [Invalid Date]. *)
Inductive JsDate : Type :=
  | ValidDate (ms : Z)
  | InvalidDate.

(** The [RangeError] of [toISOString] on an [Invalid Date]. *)
Definition invalid_time_RangeError : JsError :=
  {| je_name := "RangeError";
     je_message := "Invalid time value";
     je_frames := "" |}.

(** [Date.prototype.toISOString] *)
Definition toISOString (d : JsDate) : Js TimeString :=
  match d with
  | ValidDate ms => mret (IsoTime ms)
  | InvalidDate => throw (ThrownError invalid_time_RangeError)
  end.

(** [string | Date] *)
Inductive StringOrDate : Type :=
  | AsString (s : TimeString)
  | AsDate (d : JsDate).

Definition createCachedResponse {T} (env : Env) (data : T)
    (cachedTimestamp : StringOrDate) (options : Options)
    : Js (ApiResponse T) :=
  timestamp ←
    match cachedTimestamp with
    | AsString s => mret s
    | AsDate d => toISOString d
    end;
  let given := default no_metadata (opt_metadata options) in
  createSuccessResponse env data
    {| opt_status := opt_status options;
       opt_message := opt_message options;
       opt_metadata :=
         Some {| pm_data_completeness := pm_data_completeness given;
                 pm_last_updated := Some timestamp;
                 pm_source := Some "Cache";
                 pm_confidence_score := pm_confidence_score given |} |}.

End ResponseUtils.

(** ** [wits-client.ts] *)

Module WitsClient.

Definition countryCodeMap : gmap string string :=
  list_to_map
    [("UAE", "ARE"); ("USA", "USA"); ("UK", "GBR"); ("WORLD", "WLD");
     ("WLD", "WLD")].

(** [x || fallback] for a property typed [string]. *)
Definition or_string (x : option string) (fallback : string) : string :=
  match x with
  | Some s => if truthy s then s else fallback
  | None => fallback
  end.

(** What the engine throws when [message] is read off [null]. *)
Definition null_body_TypeError : JsError :=
  {| je_name := "TypeError";
     je_message := "Cannot read properties of null (reading 'message')";
     je_frames := "" |}.

(** [data.message]: reading a property of [null] is a [TypeError]; a
    string has no such property. *)
Definition read_message (data : Body) : Thrown + option string :=
  match data with
  | BodyNull => inl (ThrownError null_body_TypeError)
  | BodyText _ => inr None
  | BodyObject message => inr message
  end.

(** The rejection handler installed by [setupResponseInterceptors]; it
    ends in a [throw] on every path, and the result is what it throws. *)
Definition responseError (error : AxiosError) : Thrown :=
  match response error with
  | None =>
      ThrownApiError
        (ExternalApiError "WITS API is unreachable"
           (Some [("originalError", DText (axios_message error))]))
  | Some r =>
      let status := response_status r in
      let data := response_data r in
      if status =? 400 then
        match read_message data with
        | inl t => t
        | inr message =>
            ThrownApiError
              (ValidationError
                 (or_string message "Invalid request to WITS API")
                 (Some [("originalError", DBody data)]))
        end
      else if status =? 404 then
        ThrownApiError
          (ValidationError
             "The requested resource was not found in WITS API"
             (Some [("originalError", DBody data)]))
      else if 500 <=? status then
        match read_message data with
        | inl t => t
        | inr message =>
            ThrownApiError
              (ExternalApiError
                 ("WITS API server error: "
                    +:+ or_string message (pretty status))
                 (Some [("originalError", DBody data)]))
        end
      else
        match read_message data with
        | inl t => t
        | inr message =>
            ThrownApiError
              (ExternalApiError
                 ("WITS API error: "
                    +:+ or_string message (axios_message error))
                 (Some [("originalError",
                         if truthy_body data then DBody data
                         else DText (axios_message error));
                        ("status", DNumber status)]))
        end
  end.

(** [this.client.get(path, { params })] with the interceptors in place:
    a fulfilled response passes through, a rejection goes through
    [responseError]. *)
Definition client_get {A} (endpoint : nat → Query → AxiosOutcome A)
    (path : string) (query : Query) : Js A :=
  λ w,
    let w' := mkWorld (cache w) (ticks w) (trace w ++ [HttpGet path query]) in
    match endpoint (length (trace w)) query with
    | Resolved response_data => (Return response_data, w')
    | Rejected error => (Throw (responseError error), w')
    end.

Definition getCountryCode (market : option string) : string :=
  match market with
  | None => "WLD"
  | Some market =>
      if negb (truthy market) then "WLD"
      else
        match countryCodeMap !! toUpperCase market with
        | Some code => if truthy code then code else market
        | None => market
        end
  end.

(** [year || new Date().getFullYear() - 1] *)
Definition year_or_previous (env : Env) (year : option Z) : Js Z :=
  match year with
  | Some y => if truthy_int y then mret y
              else (t ← now env; mret (getFullYear env t - 1))
  | None => t ← now env; mret (getFullYear env t - 1)
  end.

Definition getTradeFlow (env : Env) (params : WitsTradeFlowParams)
    : Js WitsTradeFlowResponse :=
  emit (WitsGetTradeFlow params);;
  let reporter := getCountryCode (tfp_reporter params) in
  let partner := getCountryCode (tfp_partner params) in
  if negb (truthy_prop (tfp_productCode params)) then
    throw_api
      (ValidationError "Product code is required for trade flow requests"
         None)
  else
    y ← year_or_previous env (tfp_year params);
    client_get (tradeFlowEndpoint env) "/trade/flow"
      {| q_reporter := reporter;
         q_partner := partner;
         q_productCode := default "" (tfp_productCode params);
         q_year := y;
         q_format := "json" |}.

Definition getTariff (env : Env) (params : WitsTariffParams)
    : Js WitsTariffResponse :=
  emit (WitsGetTariff params);;
  let reporter := getCountryCode (tar_reporter params) in
  let partner := getCountryCode (tar_partner params) in
  if negb (truthy_prop (tar_productCode params)) then
    throw_api
      (ValidationError "Product code is required for tariff requests" None)
  else
    y ← year_or_previous env (tar_year params);
    client_get (tariffEndpoint env) "/tariff/rate"
      {| q_reporter := reporter;
         q_partner := partner;
         q_productCode := default "" (tar_productCode params);
         q_year := y;
         q_format := "json" |}.

Definition normalizeTradeFlowResponse (response : WitsTradeFlowResponse)
    (market : string) : WitsTradeFlowResponse :=
  {| reporter := reporter response;
     partner := market;
     productCode := productCode response;
     response_year := response_year response;
     tradeValue := tradeValue response;
     netWeight := netWeight response;
     quantity := quantity response;
     tradeFlow := tradeFlow response |}.

End WitsClient.

(** ** [trade-flow-service.ts] *)

Module TradeFlowService.

Record TradeFlowServiceConfig : Type := mkConfig {
  defaultReporter : string;
  cacheTtl : Z
}.

(** The default of the constructor's [config] parameter: one hour. *)
Definition default_config : TradeFlowServiceConfig :=
  {| defaultReporter := "WLD"; cacheTtl := 3600000 |}.

Definition getCacheKey (hs_code market : string) (year : option Z)
    : string :=
  hs_code +:+ ":" +:+ market +:+ ":" +:+
    match year with
    | Some y => if truthy_int y then pretty y else "latest"
    | None => "latest"
    end.

Section Service.
Variable env : Env.
Variable config : TradeFlowServiceConfig.

Definition isCacheValid (timestamp : Z) : Js bool :=
  let cacheTime := timestamp in
  t ← now env;
  mret (bool_decide (t - cacheTime < cacheTtl config)).

(** [cachedItem && this.isCacheValid(cachedItem.timestamp)]: the item
    when both hold. *)
Definition valid_item (cachedItem : option CacheItem)
    : Js (option CacheItem) :=
  match cachedItem with
  | Some item =>
      ok ← isCacheValid (item_timestamp item);
      mret (if ok : bool then Some item else None)
  | None => mret None
  end.

(** [witsResponse.netWeight || 0] *)
Definition netWeight_or_zero (r : WitsTradeFlowResponse) : float :=
  match netWeight r with
  | Some x => if truthy_number x then x else 0%float
  | None => 0%float
  end.

(** The payload built from the response of the WITS client. *)
Definition transform (witsResponse : WitsTradeFlowResponse)
    : TradeFlowData :=
  {| import_value_usd := tradeValue witsResponse;
     export_value_usd := 0%float;
     growth_rate := 12.5%float;
     top_exporters :=
       [ mkExporter "China" 35%float;
         mkExporter "Germany" 15%float;
         mkExporter "South Africa" 8%float ];
     import_volume := Some (netWeight_or_zero witsResponse) |}.

Definition getTradeFlow (params : MarketIntelligenceParams)
    : Js (ApiResponse TradeFlowData) :=
  if negb (truthy_prop (hs_code params)) then
    throw_api
      (ValidationError "HS code is required for trade flow requests"
         (Some [("params", DParams params)]))
  else if negb (truthy_prop (market params)) then
    throw_api
      (ValidationError "Market is required for trade flow requests"
         (Some [("params", DParams params)]))
  else
    let cacheKey :=
      getCacheKey (default "" (hs_code params))
        (default "" (market params)) (year params) in
    cachedItem ← cache_get cacheKey;
    hit ← valid_item cachedItem;
    match hit with
    | Some cachedItem =>
        ResponseUtils.createCachedResponse env (item_data cachedItem)
          (ResponseUtils.AsString (IsoTime (item_timestamp cachedItem)))
          {| ResponseUtils.opt_status := None;
             ResponseUtils.opt_message := None;
             ResponseUtils.opt_metadata :=
               Some {| pm_data_completeness := Some complete;
                       pm_last_updated := None;
                       pm_source := None;
                       pm_confidence_score := Some 0.95%float |} |}
    | None =>
        witsResponse ←
          WitsClient.getTradeFlow env
            {| tfp_reporter := Some (defaultReporter config);
               tfp_partner := market params;
               tfp_productCode := hs_code params;
               tfp_year := year params |};
        let tradeFlowData := transform witsResponse in
        stamp ← now env;
        cache_set cacheKey
          {| item_data := tradeFlowData; item_timestamp := stamp |};;
        ResponseUtils.createSuccessResponse env tradeFlowData
          {| ResponseUtils.opt_status := None;
             ResponseUtils.opt_message := None;
             ResponseUtils.opt_metadata :=
               Some {| pm_data_completeness := None;
                       pm_last_updated := None;
                       pm_source := Some "WITS API";
                       pm_confidence_score := Some 0.95%float |} |}
    end.

Definition clearCache : Js unit := cache_clear.

End Service.

End TradeFlowService.

(** ** [handler.ts] *)

Module MarketIntelligenceHandler.

Import ResponseUtils.

(** [{ metadata: { source, confidence_score } }] *)
Definition labelled (source : string) (confidence_score : float)
    : Options :=
  {| opt_status := None;
     opt_message := None;
     opt_metadata :=
       Some {| pm_data_completeness := None;
               pm_last_updated := None;
               pm_source := Some source;
               pm_confidence_score := Some confidence_score |} |}.

(** [throw new ValidationError(message, { params })] *)
Definition invalid {A} (message : string)
    (params : MarketIntelligenceParams) : Js A :=
  throw_api (ValidationError message (Some [("params", DParams params)])).

Section Handler.
Variable env : Env.

Definition handleTradeFlow (params : MarketIntelligenceParams)
    : Js (ApiResponse TradeFlowData) :=
  emit (BranchEntered TradeFlowBranch params);;
  if negb (truthy_prop (hs_code params)) then
    invalid "HS code is required for trade flow requests" params
  else if negb (truthy_prop (market params)) then
    invalid "Market is required for trade flow requests" params
  else
    createSuccessResponse env
      {| import_value_usd := 5000000000%float;
         export_value_usd := 3000000000%float;
         growth_rate := 12.5%float;
         top_exporters :=
           [ mkExporter "China" 35%float;
             mkExporter "Germany" 15%float;
             mkExporter "South Africa" 8%float ];
         import_volume := Some 250000%float |}
      (labelled "WITS API" 0.95%float).

Definition handleTariff (params : MarketIntelligenceParams)
    : Js (ApiResponse TariffData) :=
  emit (BranchEntered TariffBranch params);;
  if negb (truthy_prop (hs_code params)) then
    invalid "HS code is required for tariff requests" params
  else if negb (truthy_prop (origin params)) then
    invalid "Origin country is required for tariff requests" params
  else if negb (truthy_prop (destination params)) then
    invalid "Destination country is required for tariff requests" params
  else
    createSuccessResponse env
      {| tariff_rate := 5.2%float;
         quota_restrictions := None;
         trade_agreements :=
           [ mkTradeAgreement "AfCFTA"
               "Reduced tariff rate of 0% for qualifying goods" ] |}
      (labelled "WITS API" 0.98%float).

Definition handleMarketSize (params : MarketIntelligenceParams)
    : Js (ApiResponse MarketSizeData) :=
  emit (BranchEntered MarketSizeBranch params);;
  if negb (truthy_prop (product_category params)) then
    invalid "Product category is required for market size requests"
      params
  else if negb (truthy_prop (market params)) then
    invalid "Market is required for market size requests" params
  else
    createSuccessResponse env
      {| market_value_usd := "8.5 Billion";
         market_growth_rate := "5%";
         popular_categories :=
           ["canned vegetables"; "plant-based meals"] |}
      (labelled "ITC TradeMap" 0.93%float).

Definition handleBuyers (params : MarketIntelligenceParams)
    : Js (ApiResponse BuyersData) :=
  emit (BranchEntered BuyersBranch params);;
  if negb (truthy_prop (industry params)) then
    invalid "Industry is required for buyers requests" params
  else if negb (truthy_prop (market params)) then
    invalid "Market is required for buyers requests" params
  else
    createSuccessResponse env
      {| buyers :=
           [ mkBuyer "Almarai" "buyer@almarai.com" "Large"
               ["dairy"; "beverages"];
             mkBuyer "Spinneys" "procurement@spinneys.com" "Medium"
               ["organic"; "health foods"] ] |}
      (labelled "Internal Trade DB" 0.87%float).

Definition handleCompetitiveLandscape (params : MarketIntelligenceParams)
    : Js (ApiResponse CompetitiveLandscapeData) :=
  emit (BranchEntered CompetitiveLandscapeBranch params);;
  if negb (truthy_prop (product_category params)) then
    invalid
      "Product category is required for competitive landscape requests"
      params
  else if negb (truthy_prop (market params)) then
    invalid "Market is required for competitive landscape requests"
      params
  else
    createSuccessResponse env
      {| competitors :=
           [ mkCompetitor "Global Foods Inc." 32%float "USA"
               ["brand recognition"; "distribution network"];
             mkCompetitor "EuroFoods" 18%float "Germany"
               ["product quality"; "organic certification"] ];
         price_points :=
           {| low := "$2.50 - $4.00";
              average := "$4.00 - $6.50";
              premium := "$6.50 - $12.00" |} |}
      (labelled "Market Research DB" 0.92%float).

(** A branch's envelope seen at the union type of [handle]'s result. *)
Definition widen {A} (inj : A → MarketIntelligenceData)
    (branch : Js (ApiResponse A)) : Js (ApiResponse MarketIntelligenceData) :=
  r ← branch;
  mret {| status := status r;
          data := inj (data r);
          message := message r;
          metadata := metadata r |}.

Definition handle (params : MarketIntelligenceParams)
    : Js (ApiResponse MarketIntelligenceData) :=
  if negb (truthy_prop (type params)) then
    invalid "Request type is required" params
  else if isTradeFlowParams params then
    widen OfTradeFlow (handleTradeFlow params)
  else if isTariffParams params then
    widen OfTariff (handleTariff params)
  else if isMarketSizeParams params then
    widen OfMarketSize (handleMarketSize params)
  else if isBuyersParams params then
    widen OfBuyers (handleBuyers params)
  else if isCompetitiveLandscapeParams params then
    widen OfCompetitiveLandscape (handleCompetitiveLandscape params)
  else
    invalid ("Unsupported request type: " +:+ default "" (type params))
      params.

End Handler.

End MarketIntelligenceHandler.

(** ** [api.types.ts]: the guard on responses *)

(** [ApiResponse<any> | ApiErrorResponse] *)
Inductive AnyResponse : Type :=
  | SuccessResponse (r : ApiResponse JsValue)
  | ErrorResponse (r : ApiErrorResponse).

(** [response.data === null && 'message' in response].  A success envelope
    has the property [message] when its record holds one; an error envelope
    always has it, and its [data] is [null]. *)
Definition isApiErrorResponse (response : AnyResponse) : bool :=
  match response with
  | SuccessResponse r =>
      match data r, message r with
      | JNull, Some _ => true
      | _, _ => false
      end
  | ErrorResponse r => match er_data r with null => true end
  end.

(** ** The Express boundary: [createRouteHandler], [errorMiddleware] and
       [routes/market-intelligence.routes.ts] *)

Module Routes.

(** What a middleware did with its [res] and [next]:
    [res.status(code).json(body)], or [next(error)]. *)
Inductive Handled (B : Type) : Type :=
  | Responded (code : Z) (body : B)
  | PassedOn (error : Thrown).
Arguments Responded {B} _ _.
Arguments PassedOn {B} _.

(** The status codes a response can be written with. *)
Definition valid_status (code : Z) : bool := (100 <=? code) && (code <=? 999).

(** The [RangeError] with which any other status code is refused. *)
Definition invalid_status_RangeError (code : Z) : JsError :=
  {| je_name := "RangeError";
     je_message := "Invalid status code: " +:+ pretty code;
     je_frames := "" |}.

(** [res.status(code).json(body)]: the status and the body that are sent,
    unless the status code is refused. *)
Definition send {B} (code : Z) (body : B) : Js (Z * B) :=
  if valid_status code then mret (code, body)
  else throw (ThrownError (invalid_status_RangeError code)).

(** [createRouteHandler(handler)] applied to a request.  The [try] block
    holds the call of the handler and the sending of its envelope; what
    either throws goes to [next].  The handler is given [res] too; the
    handlers of this program leave it alone. *)
Definition createRouteHandler {Req T} (handler : Req → Js (ApiResponse T))
    (req : Req) : Js (Handled (ApiResponse T)) :=
  λ w,
    match (response ← handler req; send (status response) response) w with
    | (Return sent, w') => (Return (Responded sent.1 sent.2), w')
    | (Throw error, w') => (Return (PassedOn error), w')
    end.

(** [errorMiddleware]: the status and the body it sends; it never calls
    [next], and it catches nothing. *)
Definition errorMiddleware (env : Env) (err : Thrown)
    : Js (Z * ApiErrorResponse) :=
  errorResponse ← ErrorUtils.handleError env err;
  send (er_status errorResponse) errorResponse.

(** The parameters of [req.query] that the two routes below read, each
    given once or not at all. *)
Record RequestQuery : Type := mkRequestQuery {
  query_market : option string;
  query_product_category : option string;
  query_industry : option string
}.

(** [throw new ValidationError(message)] *)
Definition reject {A} (message : string) : Js A :=
  throw_api (ValidationError message None).

(** [GET /market-size] *)
Definition market_size_route (env : Env) (query : RequestQuery)
    : Js (ApiResponse MarketIntelligenceData) :=
  if negb (truthy_prop (query_product_category query)) then
    reject "Product category is required"
  else if negb (truthy_prop (query_market query)) then
    reject "Market is required"
  else
    MarketIntelligenceHandler.handle env
      {| type := Some MarketIntelligenceRequestType.MARKET_SIZE;
         hs_code := None;
         market := Some (default "" (query_market query));
         year := None;
         origin := None;
         destination := None;
         product_category :=
           Some (default "" (query_product_category query));
         industry := None |}.

(** [GET /buyers] *)
Definition buyers_route (env : Env) (query : RequestQuery)
    : Js (ApiResponse MarketIntelligenceData) :=
  if negb (truthy_prop (query_industry query)) then
    reject "Industry is required"
  else if negb (truthy_prop (query_market query)) then
    reject "Market is required"
  else
    MarketIntelligenceHandler.handle env
      {| type := Some MarketIntelligenceRequestType.BUYERS;
         hs_code := None;
         market := Some (default "" (query_market query));
         year := None;
         origin := None;
         destination := None;
         product_category := None;
         industry := Some (default "" (query_industry query)) |}.

(** The [switch] of [POST /] on [params.type]. *)
Definition prevalidate (params : MarketIntelligenceParams) : Js unit :=
  if bool_decide
       (type params = Some MarketIntelligenceRequestType.TRADE_FLOW) then
    if negb (truthy_prop (hs_code params)) then
      reject "HS code is required for trade flow requests"
    else if negb (truthy_prop (market params)) then
      reject "Market is required for trade flow requests"
    else mret tt
  else if bool_decide
            (type params = Some MarketIntelligenceRequestType.TARIFF) then
    if negb (truthy_prop (hs_code params)) then
      reject "HS code is required for tariff requests"
    else if negb (truthy_prop (origin params)) then
      reject "Origin is required for tariff requests"
    else if negb (truthy_prop (destination params)) then
      reject "Destination is required for tariff requests"
    else mret tt
  else if bool_decide
            (type params = Some MarketIntelligenceRequestType.MARKET_SIZE)
  then
    if negb (truthy_prop (product_category params)) then
      reject "Product category is required for market size requests"
    else if negb (truthy_prop (market params)) then
      reject "Market is required for market size requests"
    else mret tt
  else if bool_decide
            (type params = Some MarketIntelligenceRequestType.BUYERS) then
    if negb (truthy_prop (industry params)) then
      reject "Industry is required for buyers requests"
    else if negb (truthy_prop (market params)) then
      reject "Market is required for buyers requests"
    else mret tt
  else if bool_decide
            (type params
             = Some MarketIntelligenceRequestType.COMPETITIVE_LANDSCAPE)
  then
    if negb (truthy_prop (product_category params)) then
      reject
        "Product category is required for competitive landscape requests"
    else if negb (truthy_prop (market params)) then
      reject "Market is required for competitive landscape requests"
    else mret tt
  else
    reject ("Unsupported request type: " +:+ default "" (type params)).

(** [POST /], whose [req.body] is the request. *)
Definition unified_route (env : Env) (params : MarketIntelligenceParams)
    : Js (ApiResponse MarketIntelligenceData) :=
  if negb (truthy_prop (type params)) then
    reject "Request type is required"
  else
    prevalidate params;;
    MarketIntelligenceHandler.handle env params.

End Routes.

(** ** Vocabulary of the statements *)

(** The world after one reading of the clock. *)
Definition tick (w : World) : World :=
  mkWorld (cache w) (S (ticks w)) (trace w).

Definition is_request (e : Event) : bool :=
  match e with
  | HttpGet _ _ => true
  | _ => false
  end.

Definition is_wits_call (e : Event) : bool :=
  match e with
  | WitsGetTradeFlow _ | WitsGetTariff _ => true
  | _ => false
  end.

(** How many requests went out over HTTP. *)
Definition requests (events : list Event) : nat :=
  length (List.filter is_request events).

(** How many calls the WITS client received. *)
Definition wits_calls (events : list Event) : nat :=
  length (List.filter is_wits_call events).

(** The five literals of the discriminant. *)
Definition known_types : list string :=
  [ MarketIntelligenceRequestType.TRADE_FLOW;
    MarketIntelligenceRequestType.TARIFF;
    MarketIntelligenceRequestType.MARKET_SIZE;
    MarketIntelligenceRequestType.BUYERS;
    MarketIntelligenceRequestType.COMPETITIVE_LANDSCAPE ].

Definition type_of_branch (b : Branch) : string :=
  match b with
  | TradeFlowBranch => MarketIntelligenceRequestType.TRADE_FLOW
  | TariffBranch => MarketIntelligenceRequestType.TARIFF
  | MarketSizeBranch => MarketIntelligenceRequestType.MARKET_SIZE
  | BuyersBranch => MarketIntelligenceRequestType.BUYERS
  | CompetitiveLandscapeBranch =>
      MarketIntelligenceRequestType.COMPETITIVE_LANDSCAPE
  end.

(** The private method behind each branch, at the result type of
    [handle]. *)
Definition run_branch (env : Env) (b : Branch)
    (params : MarketIntelligenceParams)
    : Js (ApiResponse MarketIntelligenceData) :=
  match b with
  | TradeFlowBranch =>
      MarketIntelligenceHandler.widen OfTradeFlow
        (MarketIntelligenceHandler.handleTradeFlow env params)
  | TariffBranch =>
      MarketIntelligenceHandler.widen OfTariff
        (MarketIntelligenceHandler.handleTariff env params)
  | MarketSizeBranch =>
      MarketIntelligenceHandler.widen OfMarketSize
        (MarketIntelligenceHandler.handleMarketSize env params)
  | BuyersBranch =>
      MarketIntelligenceHandler.widen OfBuyers
        (MarketIntelligenceHandler.handleBuyers env params)
  | CompetitiveLandscapeBranch =>
      MarketIntelligenceHandler.widen OfCompetitiveLandscape
        (MarketIntelligenceHandler.handleCompetitiveLandscape env params)
  end.

(** The properties a variant requires. *)
Inductive Field : Type :=
  | hs_code_field
  | market_field
  | origin_field
  | destination_field
  | product_category_field
  | industry_field.

#[global] Instance Field_eq_dec : EqDecision Field.
Proof. solve_decision. Defined.

Definition field_value (f : Field) (params : MarketIntelligenceParams)
    : option string :=
  match f with
  | hs_code_field => hs_code params
  | market_field => market params
  | origin_field => origin params
  | destination_field => destination params
  | product_category_field => product_category params
  | industry_field => industry params
  end.

(** The required properties of each variant, in the order in which the
    specification lists them. *)
Definition required_fields (b : Branch) : list Field :=
  match b with
  | TradeFlowBranch => [hs_code_field; market_field]
  | TariffBranch => [hs_code_field; origin_field; destination_field]
  | MarketSizeBranch => [product_category_field; market_field]
  | BuyersBranch => [industry_field; market_field]
  | CompetitiveLandscapeBranch => [product_category_field; market_field]
  end.

(** The words by which a message names a property. *)
Definition field_label (f : Field) : string :=
  match f with
  | hs_code_field => "HS code"
  | market_field => "Market"
  | origin_field => "Origin country"
  | destination_field => "Destination country"
  | product_category_field => "Product category"
  | industry_field => "Industry"
  end.

(** The words by which a message names a variant. *)
Definition branch_phrase (b : Branch) : string :=
  match b with
  | TradeFlowBranch => "trade flow"
  | TariffBranch => "tariff"
  | MarketSizeBranch => "market size"
  | BuyersBranch => "buyers"
  | CompetitiveLandscapeBranch => "competitive landscape"
  end.

Definition is_missing (params : MarketIntelligenceParams) (f : Field)
    : bool :=
  negb (truthy_prop (field_value f params)).

(** The first property of the list that the request lacks. *)
Definition first_missing (fields : list Field)
    (params : MarketIntelligenceParams) : option Field :=
  List.find (is_missing params) fields.

(** The world after [e] has been observed. *)
Definition observed (e : Event) (w : World) : World :=
  mkWorld (cache w) (ticks w) (trace w ++ [e]).

(** [year] is given and truthy. *)
Definition year_given (year : option Z) : bool :=
  match year with
  | Some y => truthy_int y
  | None => false
  end.

(** The query the WITS client sends for [params] when its product code is
    [code] and the clock, if the year has to be made up, is read for the
    [n]-th time. *)
Definition query_for (env : Env) (params : WitsTradeFlowParams)
    (code : string) (n : nat) : Query :=
  {| q_reporter := WitsClient.getCountryCode (tfp_reporter params);
     q_partner := WitsClient.getCountryCode (tfp_partner params);
     q_productCode := code;
     q_year := if year_given (tfp_year params)
               then default 0 (tfp_year params)
               else getFullYear env (clock env n) - 1;
     q_format := "json" |}.

(** The parameters the trade-flow service hands to the WITS client. *)
Definition wits_params_for (config : TradeFlowService.TradeFlowServiceConfig)
    (params : MarketIntelligenceParams) : WitsTradeFlowParams :=
  {| tfp_reporter := Some (TradeFlowService.defaultReporter config);
     tfp_partner := market params;
     tfp_productCode := hs_code params;
     tfp_year := year params |}.

(** The envelope of a cache hit on [item]. *)
Definition cached_envelope (item : CacheItem) : ApiResponse TradeFlowData :=
  {| status := 200;
     data := item_data item;
     message := None;
     metadata := {| data_completeness := complete;
                    last_updated := IsoTime (item_timestamp item);
                    source := "Cache";
                    confidence_score := Some 0.95%float |} |}.

(** The envelope of a fetch that produced [payload], built at [stamp]. *)
Definition fetched_envelope (payload : TradeFlowData) (stamp : Z)
    : ApiResponse TradeFlowData :=
  {| status := 200;
     data := payload;
     message := None;
     metadata := {| data_completeness := complete;
                    last_updated := IsoTime stamp;
                    source := "WITS API";
                    confidence_score := Some 0.95%float |} |}.

(** What a route sends when [errorMiddleware] is the error handler Express
    passes [next(error)] to: the status and the body of the one
    [res.status(code).json(body)] that went through. *)
Inductive HttpReply (T : Type) : Type :=
  | ReplyEnvelope (code : Z) (body : ApiResponse T)
  | ReplyError (code : Z) (body : ApiErrorResponse).
Arguments ReplyEnvelope {T} _ _.
Arguments ReplyError {T} _ _.

(** The route handler made by [createRouteHandler], followed by
    [errorMiddleware] when the handler passed an error on.  What
    [errorMiddleware] throws is thrown by the whole. *)
Definition respond {Req T} (env : Env) (handler : Req → Js (ApiResponse T))
    (req : Req) : Js (HttpReply T) :=
  outcome ← Routes.createRouteHandler handler req;
  match outcome with
  | Routes.Responded code body => mret (ReplyEnvelope code body)
  | Routes.PassedOn error =>
      sent ← Routes.errorMiddleware env error;
      mret (ReplyError sent.1 sent.2)
  end.

(** The HTTP status of a reply and the [status] its body states. *)
Definition reply_code {T} (r : HttpReply T) : Z :=
  match r with
  | ReplyEnvelope code _ | ReplyError code _ => code
  end.

Definition reply_body_status {T} (r : HttpReply T) : Z :=
  match r with
  | ReplyEnvelope _ body => status body
  | ReplyError _ body => er_status body
  end.

(** The branch a discriminant selects. *)
Definition branch_of_type (t : string) : option Branch :=
  List.find (λ b, bool_decide (type_of_branch b = t))
    [TradeFlowBranch; TariffBranch; MarketSizeBranch; BuyersBranch;
     CompetitiveLandscapeBranch].

(** A request that names a variant and has all the properties the variant
    requires. *)
Definition accepted (params : MarketIntelligenceParams) : bool :=
  match type params with
  | Some t =>
      match branch_of_type t with
      | Some b =>
          match first_missing (required_fields b) params with
          | Some _ => false
          | None => true
          end
      | None => false
      end
  | None => false
  end.

(** The constructors of the seven subclasses of [ApiError]. *)
Definition taxonomy : list (string → option Details → ApiError) :=
  [ ValidationError; NotFoundError; UnauthorizedError; ForbiddenError;
    InternalServerError; ServiceUnavailableError; ExternalApiError ].

(** No colon occurs in the string. *)
Fixpoint no_colon (s : string) : bool :=
  match s with
  | EmptyString => true
  | String c rest => negb (bool_decide (c = ":"%char)) && no_colon rest
  end.

(** The last segment of a cache key: [year || 'latest']. *)
Definition year_segment (year : option Z) : string :=
  if year_given year then pretty (default 0 year) else "latest".

(** The string is empty or begins like a numeral: with a digit or a minus
    sign. *)
Definition numeral_start (s : string) : bool :=
  match s with
  | EmptyString => true
  | String c _ =>
      bool_decide (c = "-"%char)
      || ((48 <=? N_of_ascii c)%N && (N_of_ascii c <=? 57)%N)
  end.

(** The key under which the service caches the answer to [params]. *)
Definition key_of (params : MarketIntelligenceParams) : string :=
  TradeFlowService.getCacheKey (default "" (hs_code params))
    (default "" (market params)) (year params).

(** The query the WITS client sends for a tariff request, as [query_for]
    is for a trade-flow request. *)
Definition tariff_query_for (env : Env) (params : WitsTariffParams)
    (code : string) (n : nat) : Query :=
  {| q_reporter := WitsClient.getCountryCode (tar_reporter params);
     q_partner := WitsClient.getCountryCode (tar_partner params);
     q_productCode := code;
     q_year := if year_given (tar_year params)
               then default 0 (tar_year params)
               else getFullYear env (clock env n) - 1;
     q_format := "json" |}.

(** ** Sample inputs *)

Module Samples.

(** An upstream that answers every trade-flow request with the response
    of the client's test-suite and has no tariff service. *)
Definition mockWitsResponse : WitsTradeFlowResponse :=
  {| reporter := "WLD";
     partner := "ARE";
     productCode := "210690";
     response_year := 2022;
     tradeValue := 5000000000%float;
     netWeight := Some 250000%float;
     quantity := None;
     tradeFlow := Import |}.

Definition unreachable : AxiosError :=
  {| axios_message := "connect ECONNREFUSED"; response := None |}.

(** The clock advances one second per reading, from an arbitrary start. *)
Definition env : Env :=
  {| moduleLoaded := 1700000000000;
     clock := λ n, 1700000001000 + 1000 * Z.of_nat n;
     getFullYear := λ _, 2023;
     tradeFlowEndpoint := λ _ _, Resolved mockWitsResponse;
     tariffEndpoint := λ _ _, Rejected unreachable |}.

(** The same, with a clock that jumps two hours per reading. *)
Definition slow_env : Env :=
  {| moduleLoaded := 1700000000000;
     clock := λ n, 1700000001000 + 7200000 * Z.of_nat n;
     getFullYear := λ _, 2023;
     tradeFlowEndpoint := λ _ _, Resolved mockWitsResponse;
     tariffEndpoint := λ _ _, Rejected unreachable |}.

Definition start : World := {| cache := ∅; ticks := 0; trace := [] |}.

Definition no_params : MarketIntelligenceParams :=
  mkParams None None None None None None None None.

(** [{ type: 'trade_flow', hs_code: '210690', market: 'UAE' }] *)
Definition trade_flow_request : MarketIntelligenceParams :=
  mkParams (Some "trade_flow") (Some "210690") (Some "UAE") None None None
    None None.

(** [{ type: 'trade_flow', market: 'UAE' }] *)
Definition without_hs_code : MarketIntelligenceParams :=
  mkParams (Some "trade_flow") None (Some "UAE") None None None None None.

(** [{ type: 'unsupported_type' }] *)
Definition unsupported_request : MarketIntelligenceParams :=
  mkParams (Some "unsupported_type") None None None None None None None.

(** A failed response with status 400 whose JSON body is [null]. *)
Definition bad_request_null_body : AxiosError :=
  {| axios_message := "Request failed with status code 400";
     response :=
       Some {| response_status := 400; response_data := BodyNull |} |}.

(** A failed response with status 500 and body [{ message: "x" }]. *)
Definition server_error_x : AxiosError :=
  {| axios_message := "Request failed with status code 500";
     response :=
       Some {| response_status := 500;
               response_data := BodyObject (Some "x") |} |}.

(** An upstream that answers every request with status 400 and the JSON
    body [null]. *)
Definition null_body_env : Env :=
  {| moduleLoaded := 1700000000000;
     clock := λ n, 1700000001000 + 1000 * Z.of_nat n;
     getFullYear := λ _, 2023;
     tradeFlowEndpoint := λ _ _, Rejected bad_request_null_body;
     tariffEndpoint := λ _ _, Rejected bad_request_null_body |}.

(** [{ reporter: 'WLD', partner: 'UAE', productCode: '210690' }] *)
Definition wits_params : WitsTradeFlowParams :=
  {| tfp_reporter := Some "WLD";
     tfp_partner := Some "UAE";
     tfp_productCode := Some "210690";
     tfp_year := None |}.

(** The world that the first call of the trade-flow service for
    [trade_flow_request] leaves behind when it starts from [start] under
    [env]: the clock was read three times, one request went out, and the
    payload is cached under its key. *)
Definition sample_query : Query :=
  {| q_reporter := "WLD";
     q_partner := "ARE";
     q_productCode := "210690";
     q_year := 2022;
     q_format := "json" |}.

Definition sample_item : CacheItem :=
  {| item_data := TradeFlowService.transform mockWitsResponse;
     item_timestamp := 1700000002000 |}.

Definition after_first_call : World :=
  {| cache := {[ "210690:UAE:latest" := sample_item ]};
     ticks := 3;
     trace :=
       [ WitsGetTradeFlow
           (wits_params_for TradeFlowService.default_config
              trade_flow_request);
         HttpGet "/trade/flow" sample_query ] |}.

(** [{ status: 500 }] as the [options] of a response builder. *)
Definition status_500 : ResponseUtils.Options :=
  {| ResponseUtils.opt_status := Some 500;
     ResponseUtils.opt_message := None;
     ResponseUtils.opt_metadata := None |}.

(** [new Error("boom")] *)
Definition boom : JsError :=
  {| je_name := "Error";
     je_message := "boom";
     je_frames := String "010"%char "    at Object.<anonymous> (app.js:1:7)" |}.

(** Two requests for the same product and market in different case. *)
Definition lower_case_request : MarketIntelligenceParams :=
  mkParams (Some "trade_flow") (Some "210690") (Some "uae") None None None
    None None.

(** [{ type: 'trade_flow', hs_code: '0123', market: 'USA' }] *)
Definition other_trade_flow_request : MarketIntelligenceParams :=
  mkParams (Some "trade_flow") (Some "0123") (Some "USA") (Some 2021) None
    None None None.

End Samples.

(** * Properties *)

(** ** Truthiness and case mapping *)

Lemma truthy_true (s : string) : truthy s = true ↔ s ≠ "".
Proof.
  unfold truthy. rewrite negb_true_iff, bool_decide_eq_false. done.
Qed.

Lemma truthy_false (s : string) : truthy s = false ↔ s = "".
Proof.
  unfold truthy. rewrite negb_false_iff, bool_decide_eq_true. done.
Qed.

Lemma truthy_prop_true (x : option string) :
  truthy_prop x = true ↔ ∃ s, x = Some s ∧ s ≠ "".
Proof.
  destruct x as [s|]; simpl.
  - rewrite truthy_true. split; [eauto |]. by intros (? & [= <-] & ?).
  - split; [done |]. by intros (? & ? & ?).
Qed.

Lemma toUpperCase_empty (s : string) : toUpperCase s = "" → s = "".
Proof. destruct s; [done | discriminate]. Qed.

Lemma append_cons (c : ascii) (a b : string) :
  String c a +:+ b = String c (a +:+ b).
Proof. reflexivity. Qed.

Lemma append_nil_r (s : string) : s +:+ "" = s.
Proof.
  induction s as [|c s IH]; [done |]. by rewrite append_cons, IH.
Qed.

Lemma append_assoc (a b c : string) : (a +:+ b) +:+ c = a +:+ (b +:+ c).
Proof.
  induction a as [|x a IH]; [done |]. by rewrite !append_cons, IH.
Qed.

Lemma contains_refl (s : string) : contains s s.
Proof. exists "", "". simpl. by rewrite append_nil_r. Qed.

Lemma contains_suffix (pre s : string) : contains (pre +:+ s) s.
Proof. exists pre, "". by rewrite append_nil_r. Qed.

Lemma contains_append_l (s sub post : string) :
  contains s sub → contains (s +:+ post) sub.
Proof.
  intros (a & b & ->). exists a, (b +:+ post).
  by rewrite !append_assoc.
Qed.

Lemma contains_append_r (pre s sub : string) :
  contains s sub → contains (pre +:+ s) sub.
Proof.
  intros (a & b & ->). exists (pre +:+ a), b.
  by rewrite !append_assoc.
Qed.

(** ** The WITS client: country codes *)

Module WitsClientFacts.

Import WitsClient.

(** Every key of the map is a non-empty string and so is every code. *)
Lemma countryCodeMap_lookup (key code : string) :
  countryCodeMap !! key = Some code → key ≠ "" ∧ truthy code = true.
Proof.
  unfold countryCodeMap. simpl list_to_map.
  rewrite !lookup_insert, lookup_empty.
  repeat case_decide; intros Hcode; simplify_eq; done.
Qed.

Lemma getCountryCode_mapped (market code : string) :
  countryCodeMap !! toUpperCase market = Some code →
  getCountryCode (Some market) = code.
Proof.
  intros Hcode. destruct (countryCodeMap_lookup _ _ Hcode) as [Hkey Hok].
  unfold getCountryCode.
  assert (truthy market = true) as ->.
  { apply truthy_true. intros ->. by apply Hkey. }
  simpl. by rewrite Hcode, Hok.
Qed.

Lemma getCountryCode_unmapped (market : string) :
  truthy market = true →
  countryCodeMap !! toUpperCase market = None →
  getCountryCode (Some market) = market.
Proof. intros Hok Hnone. unfold getCountryCode. by rewrite Hok, Hnone. Qed.

(** C6, as amended.  A non-empty token whose upper-case form is not a key
    of the country code map is returned as it was given, in the caller's
    own spelling: the fallback is [market], not [market.toUpperCase()]. *)
Theorem getCountryCode_unmapped_unchanged (token : string) :
  token ≠ "" →
  countryCodeMap !! toUpperCase token = None →
  getCountryCode (Some token) = token.
Proof.
  intros Hne Hnone. apply getCountryCode_unmapped; [|done].
  by apply truthy_true.
Qed.

Lemma getCountryCode_unmapped_unchanged_xyz :
  "xyz" ≠ "" ∧ countryCodeMap !! toUpperCase "xyz" = None ∧
  getCountryCode (Some "xyz") = "xyz".
Proof.
  assert ("xyz" ≠ "") as Hne by done.
  assert (countryCodeMap !! toUpperCase "xyz" = None) as Hnone
    by (vm_compute; reflexivity).
  exact (conj Hne (conj Hnone
           (getCountryCode_unmapped_unchanged "xyz" Hne Hnone))).
Defined.

(** C6 as stated fails: the token "xyz" is non-empty, its upper-case form
    "XYZ" is not a key of the map, and the result is "xyz", which is not
    the upper-cased token. *)
Lemma getCountryCode_does_not_uppercase :
  "xyz" ≠ "" ∧ countryCodeMap !! toUpperCase "xyz" = None ∧
  toUpperCase "xyz" = "XYZ" ∧
  getCountryCode (Some "xyz") = "xyz" ∧
  getCountryCode (Some "xyz") ≠ toUpperCase "xyz".
Proof. repeat split; try (vm_compute; reflexivity); by vm_compute. Qed.

(** C7.  Normalization does not depend on the case of a mapped token: two
    tokens with the same upper-case form, when that form is a key of the
    map, get the same code, the one the map holds ("uae" and "UAE" both
    give "ARE").  An unmapped token that is already upper-case, such as
    "XYZ", comes back unchanged.  The empty token and a missing token give
    the world code "WLD". *)
Theorem getCountryCode_case_insensitive :
  (∀ a b code : string,
     toUpperCase a = toUpperCase b →
     countryCodeMap !! toUpperCase a = Some code →
     getCountryCode (Some a) = code ∧ getCountryCode (Some b) = code) ∧
  (getCountryCode (Some "uae") = "ARE" ∧
   getCountryCode (Some "UAE") = "ARE") ∧
  (∀ token : string,
     token ≠ "" → toUpperCase token = token →
     countryCodeMap !! token = None →
     getCountryCode (Some token) = token) ∧
  getCountryCode (Some "XYZ") = "XYZ" ∧
  getCountryCode (Some "") = "WLD" ∧
  getCountryCode None = "WLD".
Proof.
  split; [|split; [|split; [|split; [|split]]]].
  - intros a b code Hab Hcode. split.
    + by apply getCountryCode_mapped.
    + apply getCountryCode_mapped. by rewrite <- Hab.
  - split; vm_compute; reflexivity.
  - intros token Hne Hup Hnone. apply getCountryCode_unmapped.
    + by apply truthy_true.
    + by rewrite Hup.
  - vm_compute; reflexivity.
  - reflexivity.
  - reflexivity.
Qed.

(** C9.  [normalizeTradeFlowResponse] sets [partner] to the market token
    it is given and leaves every other field of the response as it was;
    the test-suite's response, whose partner is "ARE", normalized for
    "UAE" has partner "UAE". *)
Theorem normalizeTradeFlowResponse_frame
    (r : WitsTradeFlowResponse) (m : string) :
  partner (normalizeTradeFlowResponse r m) = m ∧
  reporter (normalizeTradeFlowResponse r m) = reporter r ∧
  productCode (normalizeTradeFlowResponse r m) = productCode r ∧
  response_year (normalizeTradeFlowResponse r m) = response_year r ∧
  tradeValue (normalizeTradeFlowResponse r m) = tradeValue r ∧
  netWeight (normalizeTradeFlowResponse r m) = netWeight r ∧
  quantity (normalizeTradeFlowResponse r m) = quantity r ∧
  tradeFlow (normalizeTradeFlowResponse r m) = tradeFlow r ∧
  (partner Samples.mockWitsResponse = "ARE" ∧
   partner (normalizeTradeFlowResponse Samples.mockWitsResponse "UAE")
     = "UAE").
Proof. repeat split. Qed.

(** *** The interceptor *)

Lemma or_string_given (x fallback : string) :
  x ≠ "" → or_string (Some x) fallback = x.
Proof. intros Hx. simpl. by apply truthy_true in Hx as ->. Qed.

Lemma read_message_defined (data : Body) :
  data ≠ BodyNull → ∃ message, read_message data = inr message.
Proof. destruct data; [done | eauto | eauto]. Qed.

(** What the interceptor makes of a failure whose body, if there is one,
    is not [null]: exactly one error of the taxonomy, chosen by the status
    alone. *)
Lemma responseError_translation (error : AxiosError) :
  match response error with
  | None =>
      responseError error =
        ThrownApiError
          (ExternalApiError "WITS API is unreachable"
             (Some [("originalError", DText (axios_message error))]))
  | Some r =>
      (response_status r = 404 →
       responseError error =
         ThrownApiError
           (ValidationError
              "The requested resource was not found in WITS API"
              (Some [("originalError", DBody (response_data r))]))) ∧
      (response_data r ≠ BodyNull →
       ∃ e, responseError error = ThrownApiError e ∧
         (response_status r = 400 ∨ response_status r = 404 →
          is_ValidationError e = true) ∧
         (response_status r ≠ 400 → response_status r ≠ 404 →
          is_ExternalApiError e = true) ∧
         (∀ x, response_status r = 400 → x ≠ "" →
            response_data r = BodyObject (Some x) → error_message e = x) ∧
         (response_status r = 400 →
          (∀ x, response_data r = BodyObject (Some x) → x = "") →
          error_message e = "Invalid request to WITS API") ∧
         (∀ x, 500 ≤ response_status r → x ≠ "" →
            response_data r = BodyObject (Some x) →
            contains (error_message e) x) ∧
         (response_status r ≠ 400 → response_status r ≠ 404 →
          response_status r < 500 →
          ∃ original,
            error_details e =
              Some [("originalError", original);
                    ("status", DNumber (response_status r))]))
  end.
Proof.
  unfold responseError. destruct (response error) as [[status body]|]; [|done].
  simpl. split.
  - intros ->. done.
  - intros Hbody. destruct (read_message_defined body Hbody) as [m Hm].
    rewrite Hm.
    destruct (Z.eqb_spec status 400) as [->|H400]; simpl.
    { eexists. split; [done |]. repeat split; try done; try lia.
      - intros x _ Hx ->. injection Hm as <-. by apply or_string_given.
      - intros _ Hnone. destruct body as [|t|[x|]]; simplify_eq/=; try done.
        by rewrite (Hnone x eq_refl). }
    destruct (Z.eqb_spec status 404) as [->|H404]; simpl.
    { eexists. split; [done |]. repeat split; try done; try lia. }
    destruct (Z.leb_spec 500 status) as [H500|H500]; simpl.
    { eexists. split; [done |]. repeat split; try done; try lia.
      intros x _ Hx ->. injection Hm as <-.
      rewrite or_string_given by done. apply contains_suffix. }
    eexists. split; [done |]. repeat split; try done; try lia.
    intros _ _ _. eauto.
Qed.

(** C3 at a response the client can receive: status 400 with the JSON body
    [null].  The interceptor reads [data.message] before it builds the
    [ValidationError], so what it throws is a [TypeError], which is no error
    of the taxonomy; [getTradeFlow] rejects with that same [TypeError]. *)
Theorem responseError_null_body :
  response Samples.bad_request_null_body
    = Some {| response_status := 400; response_data := BodyNull |} ∧
  responseError Samples.bad_request_null_body
    = ThrownError null_body_TypeError ∧
  (∀ e : ApiError,
     responseError Samples.bad_request_null_body ≠ ThrownApiError e) ∧
  thrown (getTradeFlow Samples.null_body_env Samples.wits_params
            Samples.start)
    = Some (ThrownError null_body_TypeError).
Proof.
  split; [reflexivity |]. split; [reflexivity |]. split.
  - intros e. discriminate.
  - vm_compute. reflexivity.
Qed.

(** The example of the specification: status 500 with body
    [{ message: "x" }] gives an [ExternalApiError] whose message contains
    "x". *)
Example responseError_server_error_x :
  ∃ e, responseError Samples.server_error_x = ThrownApiError e ∧
       is_ExternalApiError e = true ∧
       error_message e = "WITS API server error: x" ∧
       contains (error_message e) "x".
Proof.
  eexists. split; [reflexivity |]. split; [reflexivity |].
  split; [reflexivity |]. by exists "WITS API server error: ", "".
Qed.

End WitsClientFacts.

(** ** Conversion of thrown values *)

Module ErrorUtilsFacts.

Import ErrorUtils.

Lemma toResponse_run (env : Env) (e : ApiError) (w : World) :
  toResponse env e w =
    (Return {| er_status := error_status e;
               er_data := null;
               er_message := error_message e;
               er_error_code := Some (error_code e);
               er_details := error_details e;
               er_metadata :=
                 Some {| data_completeness := incomplete;
                         last_updated := IsoTime (clock env (ticks w));
                         source := "Error";
                         confidence_score := None |} |},
     tick w).
Proof. reflexivity. Qed.

(** The stack of an error shows its message. *)
Lemma je_stack_contains_message (e : JsError) :
  contains (je_stack e) (je_message e).
Proof.
  unfold je_stack, je_header. apply contains_append_l.
  repeat case_bool_decide.
  - match goal with H : je_message e = "" |- _ => rewrite H end.
    by exists "", (je_name e).
  - apply contains_refl.
  - apply contains_append_r, contains_suffix.
Qed.

(** What [handleError] does with each thrown value.  For an error of the
    taxonomy the envelope carries that error's status, code, message and
    details; for any other [Error] it has status 500 and code
    INTERNAL_SERVER_ERROR, with [details.original_error] the error's stack,
    in which its message occurs; for a value that is no error and has a
    string form, the same with the string form in place of the stack.  In
    these cases the clock is read once.  A value without a string form
    makes [handleError] throw what the conversion throws. *)
Lemma handleError_converts (env : Env) (error : Thrown) (w : World) :
  match error with
  | ThrownApiError e =>
      ∃ r, handleError env error w = (Return r, tick w) ∧
           er_data r = null ∧
           er_status r = error_status e ∧
           er_error_code r = Some (error_code e) ∧
           er_message r = error_message e ∧
           er_details r = error_details e
  | ThrownError e =>
      ∃ r, handleError env error w = (Return r, tick w) ∧
           er_data r = null ∧
           er_status r = 500 ∧
           er_error_code r = Some INTERNAL_SERVER_ERROR ∧
           er_message r = je_message e ∧
           er_details r = Some [("original_error", DText (je_stack e))] ∧
           contains (je_stack e) (je_message e)
  | ThrownValue v =>
      match String_of v with
      | inr text =>
          ∃ r, handleError env error w = (Return r, tick w) ∧
               er_data r = null ∧
               er_status r = 500 ∧
               er_error_code r = Some INTERNAL_SERVER_ERROR ∧
               er_message r = "An unexpected error occurred" ∧
               er_details r = Some [("original_error", DText text)]
      | inl e => handleError env error w = (Throw (ThrownError e), w)
      end
  end.
Proof.
  destruct error as [e|e|v]; unfold handleError.
  - rewrite toResponse_run. eexists. by repeat split.
  - rewrite toResponse_run. eexists. repeat split.
    apply je_stack_contains_message.
  - destruct (String_of v) as [e|text]; [reflexivity |].
    rewrite toResponse_run. eexists. by repeat split.
Qed.

(** C4.  [handleError] is not total.  Given a thrown object that has no
    conversion to a primitive, such as [Object.create(null)], the call
    [String(error)] throws a [TypeError], and [handleError] throws it in
    turn: it returns no envelope, and it has not read the clock.
    [errorMiddleware], which calls it unguarded, then throws as well and
    sends nothing. *)
Theorem handleError_bare_object (env : Env) (w : World) :
  (∃ e : JsError,
     handleError env (ThrownValue JBareObject) w = (Throw (ThrownError e), w) ∧
     je_name e = "TypeError") ∧
  returned (handleError env (ThrownValue JBareObject) w) = None ∧
  returned (Routes.errorMiddleware env (ThrownValue JBareObject) w) = None.
Proof.
  split; [by eexists |]. split; [reflexivity |].
  unfold Routes.errorMiddleware, mbind, Js_bind. reflexivity.
Qed.

(** The example of the specification: a plain error with message "boom". *)
Example handleError_boom :
  ∃ r original,
    returned (handleError Samples.env (ThrownError Samples.boom)
                Samples.start) = Some r ∧
    er_status r = 500 ∧
    er_error_code r = Some INTERNAL_SERVER_ERROR ∧
    er_data r = null ∧
    er_details r = Some [("original_error", DText original)] ∧
    contains original "boom".
Proof.
  eexists _, _. repeat split.
  exists "Error: ", (je_frames Samples.boom). reflexivity.
Qed.

End ErrorUtilsFacts.

(** ** Response envelopes *)

Module ResponseUtilsFacts.

Import ResponseUtils.

(** Reading [last_updated] returns, having read the clock at most once. *)
Lemma last_updated_or_now_run (env : Env) (metadata : PartialMetadata)
    (w : World) :
  ∃ stamp w', last_updated_or_now env metadata w = (Return stamp, w') ∧
    (w' = w ∨ w' = tick w).
Proof.
  unfold last_updated_or_now.
  destruct (pm_last_updated metadata) as [t|]; [destruct (truthy_time t) |];
    eexists _, _; (split; [reflexivity |]); auto.
Qed.

Lemma createSuccessResponse_run {T} (env : Env) (data : T)
    (options : Options) (w : World) :
  ∃ stamp w',
    last_updated_or_now env (default no_metadata (opt_metadata options)) w
      = (Return stamp, w') ∧
    createSuccessResponse env data options w =
      (Return
         {| status := default 200 (opt_status options);
            data := data;
            message := if truthy_prop (opt_message options)
                       then opt_message options else None;
            metadata :=
              let merged :=
                spread (defaultMetadata env)
                  (default no_metadata (opt_metadata options)) in
              {| data_completeness := data_completeness merged;
                 last_updated := stamp;
                 source := source merged;
                 confidence_score := confidence_score merged |} |},
       w').
Proof.
  destruct (last_updated_or_now_run env
              (default no_metadata (opt_metadata options)) w)
    as (stamp & w' & Hrun & _).
  exists stamp, w'. split; [done |].
  unfold createSuccessResponse, mbind, Js_bind. by rewrite Hrun.
Qed.

(** C8, as amended.  The success builder always returns an envelope; its
    status is the [status] option when one is supplied and 200 when none is
    (so it lies in [200,299] whenever the supplied status does), and its
    [data] is the payload it was given, whatever that is. *)
Theorem createSuccessResponse_status_and_data {T} (env : Env) (payload : T)
    (options : Options) (w : World) :
  ∃ (r : ApiResponse T) (w' : World),
    createSuccessResponse env payload options w = (Return r, w') ∧
    status r = default 200 (opt_status options) ∧
    data r = payload ∧
    (opt_status options = None → status r = 200) ∧
    (∀ s : Z, opt_status options = Some s → 200 ≤ s ≤ 299 →
       200 ≤ status r ≤ 299).
Proof.
  destruct (createSuccessResponse_run env payload options w)
    as (stamp & w' & _ & Hrun).
  eexists _, w'. split; [exact Hrun |]. simpl.
  split; [done |]. split; [done |]. split.
  - by intros ->.
  - by intros s ->.
Qed.

(** C8 as stated fails: with the option [status: 500] and the payload
    [null] the builder returns an envelope whose status is 500, outside
    [200,299], and whose [data] is [null]. *)
Lemma createSuccessResponse_status_unchecked :
  ∃ r : ApiResponse JsValue,
    returned (createSuccessResponse Samples.env JNull Samples.status_500
                Samples.start) = Some r ∧
    status r = 500 ∧
    ¬ (200 ≤ status r ≤ 299) ∧
    data r = JNull.
Proof.
  eexists. split; [reflexivity |]. simpl. split; [done |].
  split; [lia | done].
Qed.

End ResponseUtilsFacts.

(** ** The handler *)

Module HandlerFacts.

Import ResponseUtils MarketIntelligenceHandler.

(** A branch that finds a required property missing throws as soon as it
    has been entered. *)
Lemma run_branch_missing (env : Env) (b : Branch)
    (params : MarketIntelligenceParams) (w : World) (f : Field) :
  first_missing (required_fields b) params = Some f →
  run_branch env b params w =
    (Throw
       (ThrownApiError
          (ValidationError
             (field_label f +:+ " is required for " +:+ branch_phrase b
                +:+ " requests")
             (Some [("params", DParams params)]))),
     observed (BranchEntered b params) w).
Proof.
  unfold first_missing, is_missing.
  destruct b; simpl;
    unfold widen, handleTradeFlow, handleTariff, handleMarketSize,
      handleBuyers, handleCompetitiveLandscape, mbind, Js_bind; simpl;
    repeat match goal with
      | |- context [truthy_prop ?x] => destruct (truthy_prop x) eqn:?; simpl
      end;
    intros; simplify_eq; reflexivity.
Qed.

(** Whatever a branch does, the one event it adds to the trace is its own
    entry. *)
Lemma run_branch_trace (env : Env) (b : Branch)
    (params : MarketIntelligenceParams) (w : World) :
  trace (run_branch env b params w).2 = trace w ++ [BranchEntered b params].
Proof.
  destruct b; simpl;
    unfold widen, handleTradeFlow, handleTariff, handleMarketSize,
      handleBuyers, handleCompetitiveLandscape, mbind, Js_bind; simpl;
    repeat match goal with
      | |- context [truthy_prop ?x] => destruct (truthy_prop x) eqn:?; simpl
      end;
    reflexivity.
Qed.

Lemma handle_known (env : Env) (b : Branch)
    (params : MarketIntelligenceParams) :
  type params = Some (type_of_branch b) →
  handle env params = run_branch env b params.
Proof.
  intros Htype. unfold handle, isTradeFlowParams, isTariffParams,
    isMarketSizeParams, isBuyersParams, isCompetitiveLandscapeParams.
  rewrite Htype. by destruct b.
Qed.

Lemma known_types_branch (t : string) :
  t ∈ known_types ↔ ∃ b, t = type_of_branch b.
Proof.
  unfold known_types. rewrite !elem_of_cons, elem_of_nil. split.
  - intros [->|[->|[->|[->|[->|[]]]]]];
      [ by exists TradeFlowBranch | by exists TariffBranch
      | by exists MarketSizeBranch | by exists BuyersBranch
      | by exists CompetitiveLandscapeBranch ].
  - intros [[] ->]; auto 10.
Qed.

Lemma unknown_type_guard (t : string) (b : Branch) :
  t ∉ known_types → bool_decide (Some t = Some (type_of_branch b)) = false.
Proof.
  intros Hunknown. apply bool_decide_eq_false. intros [= ->].
  apply Hunknown, known_types_branch. by exists b.
Qed.

(** C1.  [handle] throws a [ValidationError] when the discriminant is
    missing or falsy; it throws a [ValidationError] whose message ends in
    the discriminant when that is a string other than the five literals;
    and for each of the five literals it runs the branch of that literal,
    which is the only branch entered. *)
Theorem handle_dispatch (env : Env) (params : MarketIntelligenceParams)
    (w : World) :
  (truthy_prop (type params) = false →
   handle env params w =
     (Throw
        (ThrownApiError
           (ValidationError "Request type is required"
              (Some [("params", DParams params)]))),
      w)) ∧
  (∀ t : string,
     type params = Some t → t ≠ "" → t ∉ known_types →
     handle env params w =
       (Throw
          (ThrownApiError
             (ValidationError ("Unsupported request type: " +:+ t)
                (Some [("params", DParams params)]))),
        w) ∧
     contains ("Unsupported request type: " +:+ t) t) ∧
  (∀ t : string,
     type params = Some t → t ∈ known_types →
     ∃ b : Branch,
       t = type_of_branch b ∧
       handle env params w = run_branch env b params w ∧
       trace (handle env params w).2
         = trace w ++ [BranchEntered b params]).
Proof.
  split; [|split].
  - intros Htype. unfold handle. by rewrite Htype.
  - intros t Htype Hne Hunknown. split; [|apply contains_suffix].
    unfold handle, isTradeFlowParams, isTariffParams, isMarketSizeParams,
      isBuyersParams, isCompetitiveLandscapeParams.
    rewrite Htype. simpl. apply truthy_true in Hne as ->. simpl.
    pose proof (λ b, unknown_type_guard t b Hunknown) as Hguard.
    pose proof (Hguard TradeFlowBranch) as H1.
    pose proof (Hguard TariffBranch) as H2.
    pose proof (Hguard MarketSizeBranch) as H3.
    pose proof (Hguard BuyersBranch) as H4.
    pose proof (Hguard CompetitiveLandscapeBranch) as H5.
    simpl in H1, H2, H3, H4, H5. by rewrite H1, H2, H3, H4, H5.
  - intros t Htype [b ->]%known_types_branch. exists b.
    split; [done |]. rewrite (handle_known env b params Htype).
    split; [done |]. apply run_branch_trace.
Qed.

(** The tests of the handler: no discriminant, and an unsupported one. *)
Example handle_without_type :
  handle Samples.env Samples.no_params Samples.start =
    (Throw
       (ThrownApiError
          (ValidationError "Request type is required"
             (Some [("params", DParams Samples.no_params)]))),
     Samples.start).
Proof. reflexivity. Qed.

Example handle_unsupported_type :
  thrown (handle Samples.env Samples.unsupported_request Samples.start) =
    Some (ThrownApiError
            (ValidationError "Unsupported request type: unsupported_type"
               (Some [("params", DParams Samples.unsupported_request)]))).
Proof. reflexivity. Qed.

(** *** Required properties *)

Lemma find_first {A} (P : A → bool) (l : list A) (x : A) :
  List.find P l = Some x →
  ∃ before after,
    l = before ++ x :: after ∧ P x = true ∧ ∀ y, y ∈ before → P y = false.
Proof.
  induction l as [|a l IH]; simpl; [done |].
  destruct (P a) eqn:Ha.
  - intros [= ->]. exists [], l. split; [done |]. split; [done |].
    intros y Hy. by apply elem_of_nil in Hy.
  - intros (before & after & -> & Hx & Hbefore)%IH.
    exists (a :: before), after. split; [done |]. split; [done |].
    intros y [->|Hy]%elem_of_cons; auto.
Qed.

Lemma find_exists {A} (P : A → bool) (l : list A) (x : A) :
  x ∈ l → P x = true → ∃ y, List.find P l = Some y.
Proof.
  intros Hx HP. destruct (List.find P l) as [y|] eqn:Hfind; [eauto |].
  apply list_elem_of_In in Hx.
  pose proof (List.find_none P l Hfind x Hx) as Hnone. congruence.
Qed.

(** C2.  When a request lacks one of the properties its variant requires,
    the branch throws a [ValidationError] and nothing else.  The message
    names, by its label, the first required property in the order of the
    variant that is missing: every required property before it is present.
    When the property [f] is the only one omitted, it is the one named.
    [handle] throws the same error for a request routed to that branch. *)
Theorem missing_field_rejected (env : Env) (b : Branch)
    (params : MarketIntelligenceParams) (w : World) (f : Field) :
  f ∈ required_fields b →
  truthy_prop (field_value f params) = false →
  ∃ (g : Field) (before after : list Field),
    required_fields b = before ++ g :: after ∧
    (∀ f', f' ∈ before → truthy_prop (field_value f' params) = true) ∧
    truthy_prop (field_value g params) = false ∧
    ((∀ f', f' ∈ required_fields b → f' ≠ f →
        truthy_prop (field_value f' params) = true) → g = f) ∧
    run_branch env b params w =
      (Throw
         (ThrownApiError
            (ValidationError
               (field_label g +:+ " is required for " +:+ branch_phrase b
                  +:+ " requests")
               (Some [("params", DParams params)]))),
       observed (BranchEntered b params) w) ∧
    (type params = Some (type_of_branch b) →
     thrown (handle env params w) =
       Some (ThrownApiError
               (ValidationError
                  (field_label g +:+ " is required for " +:+ branch_phrase b
                     +:+ " requests")
                  (Some [("params", DParams params)])))).
Proof.
  intros Hf Hmissing.
  destruct (find_exists (is_missing params) (required_fields b) f Hf)
    as [g Hfirst].
  { unfold is_missing. by rewrite Hmissing. }
  destruct (find_first _ _ _ Hfirst) as (before & after & Hsplit & Hg & Hbefore).
  pose proof (run_branch_missing env b params w g Hfirst) as Hrun.
  unfold is_missing in Hg, Hbefore.
  apply negb_true_iff in Hg.
  exists g, before, after. split; [done |]. split.
  { intros f' Hf'. apply Hbefore in Hf'. by apply negb_false_iff in Hf'. }
  split; [done |]. split.
  { intros Hothers. destruct (decide (g = f)) as [|Hne]; [done |].
    rewrite Hothers in Hg; [done | | done].
    rewrite Hsplit. set_solver. }
  split; [done |].
  intros Htype. by rewrite (handle_known env b params Htype), Hrun.
Qed.

Lemma missing_field_rejected_hs_code :
  hs_code_field ∈ required_fields TradeFlowBranch ∧
  truthy_prop (field_value hs_code_field Samples.without_hs_code) = false ∧
  thrown (handle Samples.env Samples.without_hs_code Samples.start) =
    Some (ThrownApiError
            (ValidationError "HS code is required for trade flow requests"
               (Some [("params", DParams Samples.without_hs_code)]))).
Proof.
  assert (hs_code_field ∈ required_fields TradeFlowBranch) as Hf
    by (simpl; set_solver).
  assert (truthy_prop (field_value hs_code_field Samples.without_hs_code)
          = false) as Hmissing by reflexivity.
  split; [exact Hf |]. split; [exact Hmissing |].
  destruct (missing_field_rejected Samples.env TradeFlowBranch
              Samples.without_hs_code Samples.start hs_code_field Hf Hmissing)
    as (g & before & after & _ & _ & _ & Honly & _ & Hhandle).
  rewrite (Hhandle eq_refl).
  rewrite Honly; [reflexivity |].
  intros f' Hf' Hne. simpl in Hf'.
  apply elem_of_cons in Hf' as [->|Hf']; [done |].
  apply elem_of_cons in Hf' as [->|Hf']; [reflexivity |].
  by apply elem_of_nil in Hf'.
Defined.

End HandlerFacts.

(** ** The trade-flow service and its cache *)

Module TradeFlowServiceFacts.

Import ResponseUtils WitsClient TradeFlowService.

Lemma year_or_previous_run (env : Env) (year : option Z) (w : World) :
  year_or_previous env year w =
    if year_given year then (Return (default 0 year), w)
    else (Return (getFullYear env (clock env (ticks w)) - 1), tick w).
Proof.
  unfold year_or_previous, year_given.
  destruct year as [y|]; [destruct (truthy_int y) |]; reflexivity.
Qed.

(** One call of the client with a product code: one event for the call,
    one request, and the outcome of that request through the
    interceptor. *)
Lemma client_getTradeFlow_run (env : Env) (params : WitsTradeFlowParams)
    (code : string) (w : World) :
  tfp_productCode params = Some code → code ≠ "" →
  WitsClient.getTradeFlow env params w =
    let q := query_for env params code (ticks w) in
    let k := if year_given (tfp_year params) then ticks w else S (ticks w) in
    let events := trace w ++ [WitsGetTradeFlow params; HttpGet "/trade/flow" q] in
    match tradeFlowEndpoint env (S (length (trace w))) q with
    | Resolved r => (Return r, mkWorld (cache w) k events)
    | Rejected e => (Throw (responseError e), mkWorld (cache w) k events)
    end.
Proof.
  intros Hcode Hne. apply truthy_true in Hne.
  unfold WitsClient.getTradeFlow, mbind, Js_bind, emit. simpl.
  rewrite Hcode. simpl. rewrite Hne. simpl.
  rewrite year_or_previous_run. unfold query_for, client_get.
  destruct (year_given (tfp_year params)); simpl;
    rewrite length_app, Nat.add_1_r, <- app_assoc; simpl; reflexivity.
Qed.

Lemma valid_item_run (env : Env) (config : TradeFlowServiceConfig)
    (cachedItem : option CacheItem) (w : World) :
  valid_item env config cachedItem w =
    match cachedItem with
    | Some item =>
        (Return
           (if bool_decide
                 (clock env (ticks w) - item_timestamp item < cacheTtl config)
            then Some item else None),
         tick w)
    | None => (Return None, w)
    end.
Proof. destruct cachedItem; reflexivity. Qed.

Lemma requests_app (l1 l2 : list Event) :
  requests (l1 ++ l2) = (requests l1 + requests l2)%nat.
Proof. unfold requests. by rewrite List.filter_app, length_app. Qed.

Lemma wits_calls_app (l1 l2 : list Event) :
  wits_calls (l1 ++ l2) = (wits_calls l1 + wits_calls l2)%nat.
Proof. unfold wits_calls. by rewrite List.filter_app, length_app. Qed.

Section Service.

Variable env : Env.
Variable config : TradeFlowServiceConfig.
Variable params : MarketIntelligenceParams.
Variables h m : string.
Hypothesis Hhs : hs_code params = Some h.
Hypothesis Hh : h ≠ "".
Hypothesis Hmarket : market params = Some m.
Hypothesis Hm : m ≠ "".

Let key : string := getCacheKey h m (year params).

(** After validation the service looks the key up and asks
    [valid_item]. *)
Lemma getTradeFlow_valid (w : World) :
  TradeFlowService.getTradeFlow env config params w =
    match valid_item env config (cache w !! key) w with
    | (Return (Some item), w1) => (Return (cached_envelope item), w1)
    | (Return None, w1) =>
        match WitsClient.getTradeFlow env (wits_params_for config params) w1
        with
        | (Return r, w2) =>
            (Return (fetched_envelope (transform r) (clock env (S (ticks w2)))),
             mkWorld
               (<[key := mkCacheItem (transform r) (clock env (ticks w2))]>
                  (cache w2))
               (S (S (ticks w2))) (trace w2))
        | (Throw t, w2) => (Throw t, w2)
        end
    | (Throw t, w1) => (Throw t, w1)
    end.
Proof.
  unfold TradeFlowService.getTradeFlow.
  rewrite Hhs, Hmarket. simpl.
  apply truthy_true in Hh as ->. apply truthy_true in Hm as ->. simpl.
  unfold mbind, Js_bind, cache_get. fold key.
  destruct (valid_item env config (cache w !! key) w) as [[[item|]|t] w1];
    [reflexivity | | reflexivity].
  unfold wits_params_for. rewrite Hhs, Hmarket.
  destruct (WitsClient.getTradeFlow env _ w1) as [[r|t] w2]; reflexivity.
Qed.

Lemma wits_params_code :
  tfp_productCode (wits_params_for config params) = Some h.
Proof. exact Hhs. Qed.

(** A fresh entry is served from the cache: the clock is read once, and
    nothing else changes. *)
Lemma getTradeFlow_hit (w : World) (item : CacheItem) :
  cache w !! key = Some item →
  clock env (ticks w) - item_timestamp item < cacheTtl config →
  TradeFlowService.getTradeFlow env config params w =
    (Return (cached_envelope item), tick w).
Proof.
  intros Hlookup Hfresh.
  rewrite getTradeFlow_valid, valid_item_run, Hlookup.
  by rewrite bool_decide_true.
Qed.

(** Without a fresh entry the client is called once and one request goes
    out; [n] is the number of clock readings the lookup took. *)
Lemma getTradeFlow_fetch (w : World) (n : nat) :
  valid_item env config (cache w !! key) w
    = (Return None, mkWorld (cache w) (n + ticks w) (trace w)) →
  TradeFlowService.getTradeFlow env config params w =
    let wp := wits_params_for config params in
    let q := query_for env wp h (n + ticks w) in
    let k := if year_given (year params) then (n + ticks w)%nat
             else S (n + ticks w) in
    let events := trace w ++ [WitsGetTradeFlow wp; HttpGet "/trade/flow" q] in
    match tradeFlowEndpoint env (S (length (trace w))) q with
    | Resolved r =>
        (Return (fetched_envelope (transform r) (clock env (S k))),
         mkWorld (<[key := mkCacheItem (transform r) (clock env k)]> (cache w))
           (S (S k)) events)
    | Rejected e => (Throw (responseError e), mkWorld (cache w) k events)
    end.
Proof.
  intros Hvalid. rewrite getTradeFlow_valid, Hvalid.
  rewrite (client_getTradeFlow_run env _ h _ wits_params_code Hh). simpl.
  by destruct (tradeFlowEndpoint env _ _).
Qed.

Lemma getTradeFlow_absent (w : World) :
  cache w !! key = None →
  valid_item env config (cache w !! key) w
    = (Return None, mkWorld (cache w) (0 + ticks w) (trace w)).
Proof. intros ->. by destruct w. Qed.

Lemma getTradeFlow_stale (w : World) (item : CacheItem) :
  cache w !! key = Some item →
  cacheTtl config ≤ clock env (ticks w) - item_timestamp item →
  valid_item env config (cache w !! key) w
    = (Return None, mkWorld (cache w) (1 + ticks w) (trace w)).
Proof.
  intros -> Hstale. rewrite valid_item_run.
  rewrite bool_decide_false by lia. done.
Qed.

(** Every lookup ends in one of the three ways. *)
Lemma valid_item_cases (w : World) :
  (∃ item, cache w !! key = Some item ∧
           clock env (ticks w) - item_timestamp item < cacheTtl config) ∨
  (∃ n, valid_item env config (cache w !! key) w
          = (Return None, mkWorld (cache w) (n + ticks w) (trace w))).
Proof.
  destruct (cache w !! key) as [item|] eqn:Hlookup.
  - destruct (decide (clock env (ticks w) - item_timestamp item
                      < cacheTtl config)) as [Hfresh|Hstale].
    + left. eauto.
    + right. exists 1%nat.
      assert (cacheTtl config ≤ clock env (ticks w) - item_timestamp item)
        as Hle by lia.
      pose proof (getTradeFlow_stale w item Hlookup Hle) as Hrun.
      by rewrite Hlookup in Hrun.
  - right. exists 0%nat.
    pose proof (getTradeFlow_absent w Hlookup) as Hrun.
    by rewrite Hlookup in Hrun.
Qed.

(** A call that returns leaves an entry with its payload under the key,
    and at most one request went out for it. *)
Lemma getTradeFlow_returns (w0 w1 : World) (r1 : ApiResponse TradeFlowData) :
  TradeFlowService.getTradeFlow env config params w0 = (Return r1, w1) →
  (∃ item, cache w1 !! key = Some item ∧ item_data item = data r1) ∧
  (requests (trace w1) ≤ requests (trace w0) + 1)%nat ∧
  (wits_calls (trace w1) ≤ wits_calls (trace w0) + 1)%nat.
Proof.
  intros Hrun.
  destruct (valid_item_cases w0) as [(item & Hlookup & Hfresh)|[n Hvalid]].
  - rewrite (getTradeFlow_hit w0 item Hlookup Hfresh) in Hrun.
    injection Hrun as <- <-. simpl. split; [by exists item |]. lia.
  - rewrite (getTradeFlow_fetch w0 n Hvalid) in Hrun. simpl in Hrun.
    destruct (tradeFlowEndpoint env _ _) as [r|e]; [|discriminate].
    injection Hrun as <- <-. simpl. split.
    + eexists. by rewrite lookup_insert_eq.
    + rewrite requests_app, wits_calls_app.
      change (requests [_; _]) with 1%nat.
      change (wits_calls [_; _]) with 1%nat. lia.
Qed.

(** C5.  Let the key be [hs_code:market:(year or latest)] for a request
    with a product code and a market.
    - A call that returns leaves an entry with its payload under the key.
    - While the entry is younger than the time-to-live, a call returns the
      entry's payload with source "Cache" and [last_updated] the entry's
      timestamp, and neither calls the WITS client nor sends a request nor
      changes the cache.
    - So two calls in a row, the second within the time-to-live, send at
      most one request together.
    - Once the entry's age has reached the time-to-live, a call is a miss:
      it calls the WITS client once, which sends one request; when that
      resolves, the entry is replaced by the new payload with a timestamp
      read from the clock during this call, and the envelope has source
      "WITS API"; when it is rejected, the error is thrown and the entry
      stays. *)
Theorem cache_hit_and_expiry :
  (∀ (w0 w1 : World) (r1 : ApiResponse TradeFlowData),
     TradeFlowService.getTradeFlow env config params w0 = (Return r1, w1) →
     ∃ item, cache w1 !! key = Some item ∧ item_data item = data r1) ∧
  (∀ (w : World) (item : CacheItem),
     cache w !! key = Some item →
     clock env (ticks w) - item_timestamp item < cacheTtl config →
     ∃ (r : ApiResponse TradeFlowData) (w' : World),
       TradeFlowService.getTradeFlow env config params w = (Return r, w') ∧
       data r = item_data item ∧
       source (metadata r) = "Cache" ∧
       last_updated (metadata r) = IsoTime (item_timestamp item) ∧
       trace w' = trace w ∧
       cache w' = cache w) ∧
  (∀ (w0 w1 : World) (r1 : ApiResponse TradeFlowData) (item : CacheItem),
     TradeFlowService.getTradeFlow env config params w0 = (Return r1, w1) →
     cache w1 !! key = Some item →
     clock env (ticks w1) - item_timestamp item < cacheTtl config →
     ∃ (r2 : ApiResponse TradeFlowData) (w2 : World),
       TradeFlowService.getTradeFlow env config params w1 = (Return r2, w2) ∧
       source (metadata r2) = "Cache" ∧
       data r2 = data r1 ∧
       (requests (trace w2) ≤ requests (trace w0) + 1)%nat ∧
       (wits_calls (trace w2) ≤ wits_calls (trace w0) + 1)%nat) ∧
  (∀ (w : World) (item : CacheItem),
     cache w !! key = Some item →
     cacheTtl config ≤ clock env (ticks w) - item_timestamp item →
     let wp := wits_params_for config params in
     let q := query_for env wp h (S (ticks w)) in
     ∃ (res : Completion (ApiResponse TradeFlowData)) (w' : World),
       TradeFlowService.getTradeFlow env config params w = (res, w') ∧
       trace w' = trace w ++ [WitsGetTradeFlow wp; HttpGet "/trade/flow" q] ∧
       match tradeFlowEndpoint env (S (length (trace w))) q with
       | Resolved fetched =>
           ∃ (k : nat) (r : ApiResponse TradeFlowData),
             (ticks w < k)%nat ∧
             cache w' =
               <[key := mkCacheItem (transform fetched) (clock env k)]>
                 (cache w) ∧
             res = Return r ∧
             data r = transform fetched ∧
             source (metadata r) = "WITS API"
       | Rejected e =>
           res = Throw (responseError e) ∧ cache w' = cache w
       end).
Proof.
  split; [|split; [|split]].
  - intros w0 w1 r1 Hrun. by destruct (getTradeFlow_returns w0 w1 r1 Hrun).
  - intros w item Hlookup Hfresh.
    exists (cached_envelope item), (tick w).
    by rewrite (getTradeFlow_hit w item Hlookup Hfresh).
  - intros w0 w1 r1 item Hrun Hlookup Hfresh.
    destruct (getTradeFlow_returns w0 w1 r1 Hrun)
      as ((item' & Hlookup' & Hdata) & Hrequests & Hcalls).
    assert (item' = item) as -> by congruence.
    exists (cached_envelope item), (tick w1).
    by rewrite (getTradeFlow_hit w1 item Hlookup Hfresh).
  - intros w item Hlookup Hstale wp q.
    rewrite (getTradeFlow_fetch w 1 (getTradeFlow_stale w item Hlookup Hstale)).
    simpl. fold wp q.
    destruct (tradeFlowEndpoint env _ q) as [fetched|e].
    + eexists _, _. split; [reflexivity |]. split; [reflexivity |].
      eexists _, _. split; [|split; [reflexivity |]].
      2:{ split; [reflexivity |]. done. }
      destruct (year_given (year params)); lia.
    + eexists _, _. split; [reflexivity |]. done.
Qed.

End Service.

(** The scenario of the specification: no entry yet, the stubbed upstream
    of the client's tests. *)
Example getTradeFlow_first_call :
  TradeFlowService.getTradeFlow Samples.env default_config
    Samples.trade_flow_request Samples.start =
    (Return (fetched_envelope (transform Samples.mockWitsResponse)
               1700000003000),
     Samples.after_first_call).
Proof. vm_compute. reflexivity. Qed.

Example getTradeFlow_first_call_payload :
  import_value_usd (transform Samples.mockWitsResponse) = 5000000000%float ∧
  import_volume (transform Samples.mockWitsResponse) = Some 250000%float.
Proof. split; reflexivity. Qed.

Lemma cache_hit_and_expiry_sample :
  hs_code Samples.trade_flow_request = Some "210690" ∧
  market Samples.trade_flow_request = Some "UAE" ∧
  ∃ (r2 : ApiResponse TradeFlowData) (w2 : World),
    TradeFlowService.getTradeFlow Samples.env default_config
      Samples.trade_flow_request Samples.after_first_call = (Return r2, w2) ∧
    source (metadata r2) = "Cache" ∧
    data r2 = transform Samples.mockWitsResponse ∧
    (requests (trace w2) ≤ 1)%nat.
Proof.
  split; [reflexivity |]. split; [reflexivity |].
  assert ("210690" ≠ "") as Hh by done.
  assert ("UAE" ≠ "") as Hm by done.
  destruct (cache_hit_and_expiry Samples.env default_config
              Samples.trade_flow_request "210690" "UAE"
              eq_refl Hh eq_refl Hm) as (_ & _ & Htwice & _).
  destruct (Htwice Samples.start Samples.after_first_call _
              Samples.sample_item getTradeFlow_first_call)
    as (r2 & w2 & Hrun & Hsource & Hdata & Hrequests & _).
  - vm_compute. reflexivity.
  - vm_compute. reflexivity.
  - exists r2, w2. split; [exact Hrun |]. split; [exact Hsource |].
    split; [exact Hdata | exact Hrequests].
Defined.

(** With a clock that jumps two hours between readings the entry of the
    first call has expired by the second: the client is called again, and
    the entry is written anew with a later timestamp. *)
Example getTradeFlow_expired :
  ∃ (r1 r2 : ApiResponse TradeFlowData) (w1 w2 : World)
    (first second : CacheItem),
    TradeFlowService.getTradeFlow Samples.slow_env default_config
      Samples.trade_flow_request Samples.start = (Return r1, w1) ∧
    TradeFlowService.getTradeFlow Samples.slow_env default_config
      Samples.trade_flow_request w1 = (Return r2, w2) ∧
    cache w1 !! "210690:UAE:latest" = Some first ∧
    cache w2 !! "210690:UAE:latest" = Some second ∧
    item_timestamp first < item_timestamp second ∧
    source (metadata r2) = "WITS API" ∧
    requests (trace w2) = 2%nat.
Proof.
  eexists _, _, _, _, _, _.
  split; [vm_compute; reflexivity |].
  split; [vm_compute; reflexivity |].
  split; [vm_compute; reflexivity |].
  split; [vm_compute; reflexivity |].
  split; [vm_compute; reflexivity |].
  split; vm_compute; reflexivity.
Qed.

(** C10.  A request without a product code or without a market is
    rejected with a [ValidationError] before the service looks at its
    cache, reads the clock or calls the WITS client: the world after the
    call is the world before it. *)
Theorem getTradeFlow_rejects_before_cache (env : Env)
    (config : TradeFlowServiceConfig) (params : MarketIntelligenceParams)
    (w : World) :
  truthy_prop (hs_code params) = false ∨
  truthy_prop (market params) = false →
  ∃ message : string,
    TradeFlowService.getTradeFlow env config params w =
      (Throw
         (ThrownApiError
            (ValidationError message (Some [("params", DParams params)]))),
       w) ∧
    (message = "HS code is required for trade flow requests" ∨
     message = "Market is required for trade flow requests") ∧
    cache (TradeFlowService.getTradeFlow env config params w).2 = cache w ∧
    trace (TradeFlowService.getTradeFlow env config params w).2 = trace w.
Proof.
  intros Hmissing. unfold TradeFlowService.getTradeFlow.
  destruct (truthy_prop (hs_code params)) eqn:Hhs; simpl.
  - destruct Hmissing as [|Hmarket]; [done |]. rewrite Hmarket. simpl.
    eexists. split; [reflexivity |]. auto.
  - eexists. split; [reflexivity |]. auto.
Qed.

Lemma getTradeFlow_rejects_before_cache_sample :
  truthy_prop (hs_code Samples.without_hs_code) = false ∧
  cache Samples.after_first_call ≠ ∅ ∧
  ∃ message : string,
    TradeFlowService.getTradeFlow Samples.env default_config
      Samples.without_hs_code Samples.after_first_call =
      (Throw
         (ThrownApiError
            (ValidationError message
               (Some [("params", DParams Samples.without_hs_code)]))),
       Samples.after_first_call).
Proof.
  split; [reflexivity |]. split.
  { intros Hempty.
    assert (cache Samples.after_first_call !! "210690:UAE:latest"
            = Some Samples.sample_item) as Hlookup
      by (vm_compute; reflexivity).
    rewrite Hempty in Hlookup. by rewrite lookup_empty in Hlookup. }
  destruct (getTradeFlow_rejects_before_cache Samples.env default_config
              Samples.without_hs_code Samples.after_first_call
              (or_introl eq_refl)) as (message & Hrun & _).
  exists message. exact Hrun.
Defined.

End TradeFlowServiceFacts.

(** ** More on response envelopes *)

Module EnvelopeFacts.

Import ResponseUtils.

(** What the builder makes of [options], in full. *)
Lemma createSuccessResponse_eq {T} (env : Env) (payload : T)
    (options : Options) (w : World) :
  let given := default no_metadata (opt_metadata options) in
  let kept :=
    match pm_last_updated given with
    | Some t => truthy_time t
    | None => false
    end in
  createSuccessResponse env payload options w =
    (Return
       {| status := default 200 (opt_status options);
          data := payload;
          message := if truthy_prop (opt_message options)
                     then opt_message options else None;
          metadata :=
            {| data_completeness :=
                 default complete (pm_data_completeness given);
               last_updated :=
                 if kept then default (IsoTime 0) (pm_last_updated given)
                 else IsoTime (clock env (ticks w));
               source := default "API" (pm_source given);
               confidence_score := pm_confidence_score given |} |},
     if kept then w else tick w).
Proof.
  simpl. unfold createSuccessResponse, last_updated_or_now, mbind, Js_bind.
  destruct (pm_last_updated _) as [t|]; simpl;
    [destruct (truthy_time t); simpl |];
    destruct (pm_confidence_score _); reflexivity.
Qed.

(** X1.  The success builder fills the metadata from the caller's.  A
    [data_completeness], a [source] or a [confidence_score] that the
    caller's metadata gives is kept; with no metadata given at all the
    envelope says [complete] and "API" and has no confidence score.
    [last_updated] is the caller's when that is a non-empty string, and the
    clock is then not read; otherwise it is the clock's current reading.
    The time at which the module was loaded never shows: the result depends
    on the environment through the clock alone.  [message] is present only
    when a non-empty one was given. *)
Theorem createSuccessResponse_merge {T} (env : Env) (payload : T)
    (options : Options) (w : World) :
  ∃ (r : ApiResponse T) (w' : World),
    createSuccessResponse env payload options w = (Return r, w') ∧
    (∀ md : PartialMetadata, opt_metadata options = Some md →
       (∀ d, pm_data_completeness md = Some d →
             data_completeness (metadata r) = d) ∧
       (∀ s, pm_source md = Some s → source (metadata r) = s) ∧
       (∀ c, pm_confidence_score md = Some c →
             confidence_score (metadata r) = Some c)) ∧
    (opt_metadata options = None →
       data_completeness (metadata r) = complete ∧
       source (metadata r) = "API" ∧
       confidence_score (metadata r) = None) ∧
    (∀ t, opt_metadata options ≫= pm_last_updated = Some t →
          truthy_time t = true →
          last_updated (metadata r) = t ∧ w' = w) ∧
    ((∀ t, opt_metadata options ≫= pm_last_updated = Some t →
           truthy_time t = false) →
     last_updated (metadata r) = IsoTime (clock env (ticks w)) ∧
     w' = tick w) ∧
    (message r = None ∨
     ∃ text, text ≠ "" ∧ opt_message options = Some text ∧
             message r = Some text) ∧
    (∀ env' : Env,
       (∀ n, clock env' n = clock env n) →
       createSuccessResponse env' payload options w = (Return r, w')).
Proof.
  eexists _, _. split; [apply createSuccessResponse_eq |].
  destruct options as [st msg [[dc lu src cs]|]]; simpl.
  - split; [|split; [done |]].
    { intros md [= <-]. simpl. repeat split; by intros ? ->. }
    split; [|split; [|split]].
    + intros t -> Ht. by rewrite Ht.
    + intros Hfalsy. destruct lu as [t|]; simpl; [|done].
      by rewrite (Hfalsy t eq_refl).
    + destruct msg as [text|]; simpl; [|by left].
      destruct (truthy text) eqn:Htext; [|by left].
      right. exists text. by apply truthy_true in Htext.
    + intros env' Hclock. rewrite createSuccessResponse_eq. simpl.
      by rewrite Hclock.
  - split; [done |]. split; [done |]. split; [|split; [|split]].
    + intros t [=].
    + done.
    + destruct msg as [text|]; simpl; [|by left].
      destruct (truthy text) eqn:Htext; [|by left].
      right. exists text. by apply truthy_true in Htext.
    + intros env' Hclock. rewrite createSuccessResponse_eq. simpl.
      by rewrite Hclock.
Qed.

(** X2.  [createPartialResponse] answers as [createSuccessResponse] does on
    the same arguments, except that [data_completeness] is [partial], also
    when the caller's metadata says otherwise. *)
Theorem createPartialResponse_forces_partial {T} (env : Env) (payload : T)
    (options : Options) (w : World) :
  ∃ (r : ApiResponse T) (w' : World),
    createSuccessResponse env payload options w = (Return r, w') ∧
    createPartialResponse env payload options w =
      (Return
         {| status := status r;
            data := data r;
            message := message r;
            metadata :=
              {| data_completeness := partial;
                 last_updated := last_updated (metadata r);
                 source := source (metadata r);
                 confidence_score := confidence_score (metadata r) |} |},
       w').
Proof.
  eexists _, _. split; [apply createSuccessResponse_eq |].
  unfold createPartialResponse. rewrite createSuccessResponse_eq.
  by destruct options as [st msg [[dc lu src cs]|]].
Qed.

(** X3.  [createCachedResponse] labels every envelope it returns with
    source "Cache", whatever source the caller's metadata names; status and
    payload are those of the success builder, and a [data_completeness]
    that the caller's metadata gives is kept.  Given a [Date] it returns
    with the date's ISO string as [last_updated], unless the date is an
    [Invalid Date]: then [toISOString] throws a [RangeError] and so does
    the builder.  Given a string it returns with that string as
    [last_updated] when the string is not empty, and with the clock's
    current reading when it is. *)
Theorem createCachedResponse_stamp {T} (env : Env) (payload : T)
    (cachedTimestamp : StringOrDate) (options : Options) (w : World) :
  (∀ (r : ApiResponse T) (w' : World),
     createCachedResponse env payload cachedTimestamp options w
       = (Return r, w') →
     source (metadata r) = "Cache" ∧
     status r = default 200 (opt_status options) ∧
     data r = payload ∧
     (∀ d, opt_metadata options ≫= pm_data_completeness = Some d →
           data_completeness (metadata r) = d) ∧
     (opt_metadata options = None →
      data_completeness (metadata r) = complete)) ∧
  match cachedTimestamp with
  | AsDate InvalidDate =>
      ∃ e : JsError,
        createCachedResponse env payload cachedTimestamp options w
          = (Throw (ThrownError e), w) ∧
        je_name e = "RangeError"
  | AsDate (ValidDate ms) =>
      ∃ r : ApiResponse T,
        createCachedResponse env payload cachedTimestamp options w
          = (Return r, w) ∧
        last_updated (metadata r) = IsoTime ms
  | AsString t =>
      ∃ r : ApiResponse T,
        if truthy_time t then
          createCachedResponse env payload cachedTimestamp options w
            = (Return r, w) ∧
          last_updated (metadata r) = t
        else
          createCachedResponse env payload cachedTimestamp options w
            = (Return r, tick w) ∧
          last_updated (metadata r) = IsoTime (clock env (ticks w))
  end.
Proof.
  unfold createCachedResponse, mbind, Js_bind. split.
  - intros r w'.
    destruct cachedTimestamp as [t|[ms|]]; simpl; [| |done];
      rewrite createSuccessResponse_eq; simpl; intros [= <- _]; simpl;
      (split; [done |]); (split; [done |]); (split; [done |]);
      destruct (opt_metadata options) as [md|]; simpl;
      (split; [by intros d [= ->] | done]).
  - destruct cachedTimestamp as [t|[ms|]]; simpl.
    + rewrite createSuccessResponse_eq. simpl.
      destruct (truthy_time t); eexists; by split.
    + eexists. rewrite createSuccessResponse_eq. by split.
    + by eexists.
Qed.

(** X4.  The guard [isApiErrorResponse] takes a success envelope made by
    [createSuccessResponse] for an error response exactly when the payload
    is [null] and a non-empty message was given. *)
Theorem isApiErrorResponse_of_success (env : Env) (payload : JsValue)
    (options : Options) (w : World) :
  ∃ (r : ApiResponse JsValue) (w' : World),
    createSuccessResponse env payload options w = (Return r, w') ∧
    (isApiErrorResponse (SuccessResponse r) = true ↔
     payload = JNull ∧ truthy_prop (opt_message options) = true).
Proof.
  eexists _, _. split; [apply createSuccessResponse_eq |]. simpl.
  destruct payload; simpl;
    destruct (opt_message options) as [text|]; simpl;
    try destruct (truthy text); simpl; split; try done;
    by intros [? ?].
Qed.

End EnvelopeFacts.

(** ** More on the WITS client *)

Module WitsClientMore.

Import WitsClient.

Lemma getTariff_sends (env : Env) (params : WitsTariffParams)
    (code : string) (w : World) :
  tar_productCode params = Some code → code ≠ "" →
  WitsClient.getTariff env params w =
    let q := tariff_query_for env params code (ticks w) in
    let w' :=
      mkWorld (cache w)
        (if year_given (tar_year params) then ticks w else S (ticks w))
        (trace w ++ [WitsGetTariff params; HttpGet "/tariff/rate" q]) in
    match tariffEndpoint env (S (length (trace w))) q with
    | Resolved r => (Return r, w')
    | Rejected e => (Throw (responseError e), w')
    end.
Proof.
  intros Hcode Hne. apply truthy_true in Hne.
  unfold WitsClient.getTariff, mbind, Js_bind, emit. simpl.
  rewrite Hcode. simpl. rewrite Hne. simpl.
  rewrite TradeFlowServiceFacts.year_or_previous_run.
  unfold tariff_query_for, client_get.
  destruct (year_given (tar_year params)); simpl;
    rewrite length_app, Nat.add_1_r, <- app_assoc; simpl; reflexivity.
Qed.

(** X5.  Without a product code (missing or empty) both methods of the
    client throw a [ValidationError] that carries no details, and do so
    before anything else happens: no request is sent, the clock is not read
    and the cache is not touched. *)
Theorem wits_requires_product_code (env : Env) (w : World) :
  (∀ params : WitsTradeFlowParams,
     truthy_prop (tfp_productCode params) = false →
     WitsClient.getTradeFlow env params w =
       (Throw
          (ThrownApiError
             (ValidationError
                "Product code is required for trade flow requests" None)),
        observed (WitsGetTradeFlow params) w)) ∧
  (∀ params : WitsTariffParams,
     truthy_prop (tar_productCode params) = false →
     WitsClient.getTariff env params w =
       (Throw
          (ThrownApiError
             (ValidationError "Product code is required for tariff requests"
                None)),
        observed (WitsGetTariff params) w)) ∧
  (∀ e : Event,
     is_request e = false →
     requests (trace (observed e w)) = requests (trace w) ∧
     ticks (observed e w) = ticks w ∧
     cache (observed e w) = cache w).
Proof.
  split; [|split].
  - intros params Hcode.
    unfold WitsClient.getTradeFlow, mbind, Js_bind, emit. simpl.
    by rewrite Hcode.
  - intros params Hcode.
    unfold WitsClient.getTariff, mbind, Js_bind, emit. simpl.
    by rewrite Hcode.
  - intros e He. simpl. split; [|done].
    unfold requests. rewrite List.filter_app, length_app. simpl.
    rewrite He. simpl. lia.
Qed.

(** X6.  With a product code each method sends exactly one request, to
    [/trade/flow] and to [/tariff/rate]; it carries the country codes of the
    reporter and of the partner, the product code as given and the format
    "json".  Its year is the year given when that is a number other than 0;
    when the year is missing or 0 it is the year before the calendar year
    of the clock, which is read once for it.  A resolved request returns the
    upstream payload as it came; a rejected one throws what the interceptor
    makes of the rejection.  The cache is not touched. *)
Theorem wits_sends_one_request (env : Env) (w : World) :
  (∀ (params : WitsTradeFlowParams) (code : string),
     tfp_productCode params = Some code → code ≠ "" →
     ∃ (q : Query) (w' : World),
       WitsClient.getTradeFlow env params w =
         match tradeFlowEndpoint env (S (length (trace w))) q with
         | Resolved r => (Return r, w')
         | Rejected e => (Throw (responseError e), w')
         end ∧
       trace w' = trace w ++ [WitsGetTradeFlow params; HttpGet "/trade/flow" q] ∧
       cache w' = cache w ∧
       q_reporter q = getCountryCode (tfp_reporter params) ∧
       q_partner q = getCountryCode (tfp_partner params) ∧
       q_productCode q = code ∧
       q_format q = "json" ∧
       (∀ y, tfp_year params = Some y → y ≠ 0 →
             q_year q = y ∧ ticks w' = ticks w) ∧
       (tfp_year params = None ∨ tfp_year params = Some 0 →
        q_year q = getFullYear env (clock env (ticks w)) - 1 ∧
        ticks w' = S (ticks w))) ∧
  (∀ (params : WitsTariffParams) (code : string),
     tar_productCode params = Some code → code ≠ "" →
     ∃ (q : Query) (w' : World),
       WitsClient.getTariff env params w =
         match tariffEndpoint env (S (length (trace w))) q with
         | Resolved r => (Return r, w')
         | Rejected e => (Throw (responseError e), w')
         end ∧
       trace w' = trace w ++ [WitsGetTariff params; HttpGet "/tariff/rate" q] ∧
       cache w' = cache w ∧
       q_reporter q = getCountryCode (tar_reporter params) ∧
       q_partner q = getCountryCode (tar_partner params) ∧
       q_productCode q = code ∧
       q_format q = "json" ∧
       (∀ y, tar_year params = Some y → y ≠ 0 →
             q_year q = y ∧ ticks w' = ticks w) ∧
       (tar_year params = None ∨ tar_year params = Some 0 →
        q_year q = getFullYear env (clock env (ticks w)) - 1 ∧
        ticks w' = S (ticks w))).
Proof.
  split.
  - intros params code Hcode Hne.
    eexists _, _. split;
      [apply (TradeFlowServiceFacts.client_getTradeFlow_run env params code w
                Hcode Hne) |].
    simpl. repeat (split; [done |]). split.
    + intros y -> Hy. simpl. unfold truthy_int.
      by apply Z.eqb_neq in Hy as ->.
    + by intros [->| ->].
  - intros params code Hcode Hne.
    eexists _, _. split;
      [apply (getTariff_sends env params code w Hcode Hne) |].
    simpl. repeat (split; [done |]). split.
    + intros y -> Hy. simpl. unfold truthy_int.
      by apply Z.eqb_neq in Hy as ->.
    + by intros [->| ->].
Qed.

(** Every code the map holds is non-empty and is converted to itself. *)
Lemma countryCodeMap_lookup_code (key code : string) :
  countryCodeMap !! key = Some code →
  truthy code = true ∧ getCountryCode (Some code) = code.
Proof.
  unfold countryCodeMap at 1. simpl list_to_map.
  rewrite !lookup_insert, lookup_empty.
  repeat case_decide; intros Hcode; simplify_eq;
    (split; [reflexivity | vm_compute; reflexivity]).
Qed.

(** X7.  A country code is never empty, and converting a code again gives
    the same code: every code the map holds, and the world code, is a token
    the conversion leaves alone. *)
Theorem getCountryCode_idempotent (market : option string) :
  getCountryCode market ≠ "" ∧
  getCountryCode (Some (getCountryCode market)) = getCountryCode market.
Proof.
  assert (getCountryCode (Some "WLD") = "WLD") as Hworld
    by (vm_compute; reflexivity).
  destruct market as [token|];
    [|change (getCountryCode None) with "WLD"; split; [done | exact Hworld]].
  destruct (truthy token) eqn:Htoken.
  - destruct (countryCodeMap !! toUpperCase token) as [code|] eqn:Hcode.
    + destruct (countryCodeMap_lookup_code _ _ Hcode) as [Hok Hfixed].
      assert (getCountryCode (Some token) = code) as ->
        by (unfold getCountryCode; by rewrite Htoken, Hcode, Hok).
      split; [by apply truthy_true | exact Hfixed].
    + assert (getCountryCode (Some token) = token) as Hsame
        by (unfold getCountryCode; by rewrite Htoken, Hcode).
      rewrite !Hsame. split; [by apply truthy_true | done].
  - assert (getCountryCode (Some token) = "WLD") as ->
      by (unfold getCountryCode; by rewrite Htoken).
    split; [done | exact Hworld].
Qed.

End WitsClientMore.

(** ** More on the trade-flow service *)

Module TradeFlowServiceMore.

Import ResponseUtils WitsClient TradeFlowService TradeFlowServiceFacts.

Lemma key_of_valid (params : MarketIntelligenceParams) (h m : string) :
  hs_code params = Some h → market params = Some m →
  key_of params = getCacheKey h m (year params).
Proof. unfold key_of. by intros -> ->. Qed.

(** The three ways a call can go: rejected at once, served from the cache,
    or sent upstream. *)
Lemma getTradeFlow_outcome (env : Env) (config : TradeFlowServiceConfig)
    (params : MarketIntelligenceParams) (w : World) :
  (∃ text,
     TradeFlowService.getTradeFlow env config params w =
       (Throw
          (ThrownApiError
             (ValidationError text (Some [("params", DParams params)]))),
        w)) ∨
  (∃ item,
     cache w !! key_of params = Some item ∧
     TradeFlowService.getTradeFlow env config params w =
       (Return (cached_envelope item), tick w)) ∨
  (∃ (q : Query) (k : nat),
     TradeFlowService.getTradeFlow env config params w =
       let events :=
         trace w ++ [WitsGetTradeFlow (wits_params_for config params);
                     HttpGet "/trade/flow" q] in
       match tradeFlowEndpoint env (S (length (trace w))) q with
       | Resolved r =>
           (Return (fetched_envelope (transform r) (clock env (S k))),
            mkWorld
              (<[key_of params := mkCacheItem (transform r) (clock env k)]>
                 (cache w))
              (S (S k)) events)
       | Rejected e => (Throw (responseError e), mkWorld (cache w) k events)
       end).
Proof.
  destruct (truthy_prop (hs_code params)) eqn:Hhs.
  2:{ left. eexists. unfold TradeFlowService.getTradeFlow.
      rewrite Hhs. reflexivity. }
  destruct (truthy_prop (market params)) eqn:Hmarket.
  2:{ left. eexists. unfold TradeFlowService.getTradeFlow.
      rewrite Hhs, Hmarket. reflexivity. }
  apply truthy_prop_true in Hhs as (h & Hhs & Hh).
  apply truthy_prop_true in Hmarket as (m & Hmarket & Hm).
  right. rewrite (key_of_valid params h m Hhs Hmarket).
  destruct (valid_item_cases env config params h m w)
    as [(item & Hlookup & Hfresh)|[n Hvalid]].
  - left. exists item. split; [done |].
    by apply (getTradeFlow_hit env config params h m).
  - right. eexists _, _.
    apply (getTradeFlow_fetch env config params h m Hhs Hh Hmarket Hm w n
             Hvalid).
Qed.

(** X8.  A call changes the cache at no key but its own, and removes no
    entry: what was cached under another key is still there, unchanged,
    whether the call returns or throws. *)
Theorem getTradeFlow_cache_frame (env : Env)
    (config : TradeFlowServiceConfig) (params : MarketIntelligenceParams)
    (w : World) :
  (∀ key : string,
     key ≠ key_of params →
     cache (TradeFlowService.getTradeFlow env config params w).2 !! key
       = cache w !! key) ∧
  (∀ key : string,
     is_Some (cache w !! key) →
     is_Some
       (cache (TradeFlowService.getTradeFlow env config params w).2 !! key)).
Proof.
  destruct (getTradeFlow_outcome env config params w)
    as [[text ->]|[(item & _ & ->)|(q & k & ->)]]; simpl; [done | done |].
  destruct (tradeFlowEndpoint env _ q) as [r|e]; simpl; [|done].
  split.
  - intros key Hkey. by rewrite lookup_insert_ne.
  - intros key Hsome. rewrite lookup_insert. by case_decide.
Qed.



(** X10.  [clearCache] empties the cache and touches nothing else, so the
    next call for a request with a product code and a market goes upstream,
    however fresh the entry was that it had. *)
Theorem clearCache_forces_fetch (env : Env) (config : TradeFlowServiceConfig)
    (params : MarketIntelligenceParams) (h m : string) (w : World) :
  hs_code params = Some h → h ≠ "" →
  market params = Some m → m ≠ "" →
  ∃ cleared : World,
    clearCache w = (Return tt, cleared) ∧
    cache cleared = ∅ ∧ ticks cleared = ticks w ∧ trace cleared = trace w ∧
    wits_calls
      (trace (TradeFlowService.getTradeFlow env config params cleared).2)
      = S (wits_calls (trace w)) ∧
    requests
      (trace (TradeFlowService.getTradeFlow env config params cleared).2)
      = S (requests (trace w)).
Proof.
  intros Hhs Hh Hmarket Hm. eexists. split; [reflexivity |]. simpl.
  split; [done |]. split; [done |]. split; [done |].
  set (cleared := mkWorld ∅ (ticks w) (trace w)).
  assert (cache cleared !! getCacheKey h m (year params) = None) as Hnone
    by apply lookup_empty.
  rewrite (getTradeFlow_fetch env config params h m Hhs Hh Hmarket Hm
             cleared 0
             (getTradeFlow_absent env config params h m cleared Hnone)).
  simpl. destruct (tradeFlowEndpoint env _ _); simpl;
    rewrite requests_app, wits_calls_app;
    change (requests [_; _]) with 1%nat;
    change (wits_calls [_; _]) with 1%nat; lia.
Qed.

Lemma clearCache_forces_fetch_sample :
  cache Samples.after_first_call !! "210690:UAE:latest"
    = Some Samples.sample_item ∧
  ∃ cleared : World,
    clearCache Samples.after_first_call = (Return tt, cleared) ∧
    requests
      (trace (TradeFlowService.getTradeFlow Samples.env default_config
                Samples.trade_flow_request cleared).2) = 2%nat.
Proof.
  split; [vm_compute; reflexivity |].
  assert ("210690" ≠ "") as Hh by done.
  assert ("UAE" ≠ "") as Hm by done.
  destruct (clearCache_forces_fetch Samples.env default_config
              Samples.trade_flow_request "210690" "UAE"
              Samples.after_first_call eq_refl Hh eq_refl Hm)
    as (cleared & Hclear & _ & _ & _ & _ & Hrequests).
  exists cleared. split; [exact Hclear | exact Hrequests].
Defined.

Lemma truthy_number_not_nan (x : float) :
  truthy_number x = true → PrimFloat.is_nan x = false.
Proof.
  unfold truthy_number.
  destruct (PrimFloat.is_zero x), (PrimFloat.is_nan x); done.
Qed.

Lemma netWeight_or_zero_not_nan (r : WitsTradeFlowResponse) :
  PrimFloat.is_nan (netWeight_or_zero r) = false.
Proof.
  unfold netWeight_or_zero. destruct (netWeight r) as [x|]; [|reflexivity].
  destruct (truthy_number x) eqn:Hx; [|reflexivity].
  by apply truthy_number_not_nan.
Qed.



(** *** Cache keys *)

Lemma getCacheKey_segments (h m : string) (y : option Z) :
  getCacheKey h m y = h +:+ ":" +:+ m +:+ ":" +:+ year_segment y.
Proof.
  unfold getCacheKey, year_segment, year_given.
  destruct y as [y|]; [destruct (truthy_int y) |]; reflexivity.
Qed.

(** Two strings without a colon, each followed by a colon: the first colon
    tells where they end. *)
Lemma append_colon_inj (a a' b b' : string) :
  no_colon a = true → no_colon a' = true →
  a +:+ ":" +:+ b = a' +:+ ":" +:+ b' → a = a' ∧ b = b'.
Proof.
  revert a'. induction a as [|c a IH]; intros [|c' a'] Ha Ha' Heq.
  - change (String ":" b = String ":" b') in Heq. by injection Heq as ->.
  - exfalso.
    change (String ":" b = String c' (a' +:+ ":" +:+ b')) in Heq.
    injection Heq as <- _.
    simpl in Ha'.
    first [discriminate Ha' | by rewrite bool_decide_true in Ha'].
  - exfalso.
    change (String c (a +:+ ":" +:+ b) = String ":" b') in Heq.
    injection Heq as -> _.
    simpl in Ha.
    first [discriminate Ha | by rewrite bool_decide_true in Ha].
  - change (String c (a +:+ ":" +:+ b) = String c' (a' +:+ ":" +:+ b'))
      in Heq.
    injection Heq as -> Heq.
    simpl in Ha, Ha'. apply andb_true_iff in Ha as [_ Ha].
    apply andb_true_iff in Ha' as [_ Ha'].
    destruct (IH a' Ha Ha' Heq) as [-> ->]. done.
Qed.

Lemma length_append (a b : string) :
  String.length (a +:+ b) = (String.length a + String.length b)%nat.
Proof.
  induction a as [|c a IH]; [reflexivity |].
  change (S (String.length (a +:+ b))
          = S (String.length a + String.length b)).
  by rewrite IH.
Qed.

Lemma append_inj_r (a b c : string) : a +:+ c = b +:+ c → a = b.
Proof.
  revert b. induction a as [|x a IH]; intros [|y b] Heq.
  - done.
  - exfalso. apply (f_equal String.length) in Heq.
    rewrite (length_append "" c), (length_append (String y b) c) in Heq.
    simpl in Heq. lia.
  - exfalso. apply (f_equal String.length) in Heq.
    rewrite (length_append "" c), (length_append (String x a) c) in Heq.
    simpl in Heq. lia.
  - change (String x (a +:+ c) = String y (b +:+ c)) in Heq.
    injection Heq as -> Heq. by rewrite (IH b Heq).
Qed.

Lemma pretty_N_char_digit (x : N) :
  numeral_start (String (pretty_N_char x) "") = true.
Proof.
  unfold pretty_N_char. repeat case_match; reflexivity.
Qed.

Lemma numeral_start_cons (c : ascii) (s s' : string) :
  numeral_start (String c s) = numeral_start (String c s').
Proof. reflexivity. Qed.

Lemma pretty_N_go_numeral (x : N) (s : string) :
  (0 < x)%N → numeral_start (pretty_N_go x s) = true.
Proof.
  revert s. induction (N.lt_wf_0 x) as [x _ IH]; intros s Hx.
  rewrite pretty_N_go_step by done.
  destruct (decide (x `div` 10 = 0)%N) as [->|Hdiv].
  - rewrite pretty_N_go_0.
    rewrite (numeral_start_cons _ _ ""). apply pretty_N_char_digit.
  - apply IH.
    + apply N.div_lt; [done | reflexivity].
    + by apply N.neq_0_lt_0.
Qed.

(** The decimal form of an integer begins with a digit or a minus sign. *)
Lemma pretty_Z_numeral (z : Z) : numeral_start (pretty z) = true.
Proof.
  destruct z as [|p|p]; [reflexivity | |reflexivity].
  change (pretty (Z.pos p)) with (pretty (N.pos p)).
  unfold pretty, pretty_N. rewrite decide_False by done.
  by apply pretty_N_go_numeral.
Qed.

Lemma year_segment_inj (y y' : option Z) :
  year_segment y = year_segment y' →
  year_given y = year_given y' ∧ (year_given y = true → y = y').
Proof.
  unfold year_segment.
  destruct (year_given y) eqn:Hy, (year_given y') eqn:Hy'; intros Heq.
  - split; [done |]. intros _. apply (inj pretty) in Heq.
    destruct y as [z|], y' as [z'|]; simpl in *; try done. by subst.
  - exfalso. pose proof (pretty_Z_numeral (default 0 y)) as Hnum.
    rewrite Heq in Hnum. discriminate.
  - exfalso. pose proof (pretty_Z_numeral (default 0 y')) as Hnum.
    rewrite <- Heq in Hnum. discriminate.
  - done.
Qed.

(** X12.  Cache keys.  A request with year 0 shares its key with the
    request that gives no year.  For product codes and markets that contain
    no colon the key tells them apart: equal keys mean equal product code
    and market, years that are both given or both not, and equal years when
    given; a given year never collides with "latest".  With a colon in a
    product code or market, different requests can share a key. *)
Theorem getCacheKey_injective :
  (∀ h m : string, getCacheKey h m (Some 0) = getCacheKey h m None) ∧
  (∀ (h m h' m' : string) (y y' : option Z),
     no_colon h = true → no_colon m = true →
     no_colon h' = true → no_colon m' = true →
     getCacheKey h m y = getCacheKey h' m' y' →
     h = h' ∧ m = m' ∧ year_given y = year_given y' ∧
     (year_given y = true → y = y')) ∧
  (∃ h m h' m' : string,
     (h, m) ≠ (h', m') ∧ getCacheKey h m None = getCacheKey h' m' None).
Proof.
  split; [|split].
  - reflexivity.
  - intros h m h' m' y y' Hh Hm Hh' Hm' Heq.
    rewrite !getCacheKey_segments in Heq.
    apply append_colon_inj in Heq as [-> Heq]; [|done|done].
    apply append_colon_inj in Heq as [-> Heq]; [|done|done].
    split; [done |]. split; [done |]. by apply year_segment_inj.
  - exists "a:b", "c", "a", "b:c". split; [done |]. reflexivity.
Qed.



End TradeFlowServiceMore.

(** ** More on the handler *)

Module HandlerMore.

Import ResponseUtils MarketIntelligenceHandler HandlerFacts.

Ltac run_branches :=
  unfold run_branch, widen, handleTradeFlow, handleTariff, handleMarketSize,
    handleBuyers, handleCompetitiveLandscape, mbind, Js_bind; simpl;
  repeat match goal with
    | |- context [truthy_prop ?x] => destruct (truthy_prop x) eqn:?; simpl
    end.

(** A branch that finds its properties answers with an envelope that
    depends on the branch and on the clock only. *)
Lemma run_branch_table :
  ∃ table : Branch → MarketIntelligenceData * string * float,
    ∀ (env : Env) (b : Branch) (params : MarketIntelligenceParams)
      (w : World),
      first_missing (required_fields b) params = None →
      run_branch env b params w =
        (Return
           {| status := 200;
              data := (table b).1.1;
              message := None;
              metadata :=
                {| data_completeness := complete;
                   last_updated := IsoTime (clock env (ticks w));
                   source := (table b).1.2;
                   confidence_score := Some (table b).2 |} |},
         mkWorld (cache w) (S (ticks w))
           (trace w ++ [BranchEntered b params])).
Proof.
  exists (λ b,
    match
      returned
        (run_branch Samples.env b
           (mkParams None (Some "x") (Some "x") None (Some "x") (Some "x")
              (Some "x") (Some "x")) Samples.start)
    with
    | Some r =>
        (data r, source (metadata r),
         default 0%float (confidence_score (metadata r)))
    | None => (OfBuyers (mkBuyersData []), "", 0%float)
    end).
  intros env b params w. unfold first_missing, is_missing.
  destruct b; simpl; run_branches; intros; simplify_eq; reflexivity.
Qed.

Lemma branch_of_type_spec (t : string) (b : Branch) :
  branch_of_type t = Some b ↔ t = type_of_branch b.
Proof.
  split.
  - intros Hfind. apply List.find_some in Hfind as [_ Hb].
    by apply bool_decide_eq_true in Hb.
  - intros ->. by destruct b.
Qed.

(** What [handle] does, by whether the request is accepted. *)
Lemma handle_cases (env : Env) (params : MarketIntelligenceParams)
    (w : World) :
  if accepted params then
    ∃ b, type params = Some (type_of_branch b) ∧
         first_missing (required_fields b) params = None ∧
         handle env params w = run_branch env b params w
  else
    ∃ text w',
      handle env params w =
        (Throw
           (ThrownApiError
              (ValidationError text (Some [("params", DParams params)]))),
         w') ∧
      (w' = w ∨ ∃ b, w' = observed (BranchEntered b params) w).
Proof.
  unfold accepted. destruct (type params) as [t|] eqn:Htype.
  2:{ eexists _, _. split; [|by left]. unfold handle. by rewrite Htype. }
  destruct (branch_of_type t) as [b|] eqn:Hbranch.
  - apply branch_of_type_spec in Hbranch as ->.
    destruct (first_missing (required_fields b) params) as [f|] eqn:Hfirst.
    + eexists _, _. rewrite (handle_known env b params Htype).
      split; [apply (run_branch_missing env b params w f Hfirst) |].
      right. by exists b.
    + exists b. split; [done |]. split; [done |].
      by rewrite (handle_known env b params Htype).
  - destruct (decide (t = "")) as [->|Hne].
    { eexists _, _. split; [|by left]. unfold handle. by rewrite Htype. }
    assert (t ∉ known_types) as Hunknown.
    { intros [b ->]%known_types_branch.
      by rewrite (proj2 (branch_of_type_spec _ b) eq_refl) in Hbranch. }
    eexists _, _. split; [|by left].
    unfold handle, isTradeFlowParams, isTariffParams, isMarketSizeParams,
      isBuyersParams, isCompetitiveLandscapeParams.
    rewrite Htype. simpl. apply truthy_true in Hne as ->. simpl.
    pose proof (λ b, unknown_type_guard t b Hunknown) as Hguard.
    pose proof (Hguard TradeFlowBranch) as H1.
    pose proof (Hguard TariffBranch) as H2.
    pose proof (Hguard MarketSizeBranch) as H3.
    pose proof (Hguard BuyersBranch) as H4.
    pose proof (Hguard CompetitiveLandscapeBranch) as H5.
    simpl in H1, H2, H3, H4, H5. by rewrite H1, H2, H3, H4, H5.
Qed.

Lemma type_of_branch_inj (b b' : Branch) :
  type_of_branch b = type_of_branch b' → b = b'.
Proof. by destruct b, b'. Qed.

(** X14.  The five type guards exclude one another: at most one of them
    holds of a request, and one holds exactly when the discriminant is one
    of the five literals. *)
Theorem type_guards_exclusive (params : MarketIntelligenceParams) :
  let holding :=
    length
      (List.filter id
         [ isTradeFlowParams params; isTariffParams params;
           isMarketSizeParams params; isBuyersParams params;
           isCompetitiveLandscapeParams params ]) in
  (holding ≤ 1)%nat ∧
  (holding = 1%nat ↔ ∃ t, type params = Some t ∧ t ∈ known_types).
Proof.
  unfold isTradeFlowParams, isTariffParams, isMarketSizeParams,
    isBuyersParams, isCompetitiveLandscapeParams.
  destruct (type params) as [t|].
  2:{ simpl. split; [lia |]. split; [done |]. by intros (t & [=] & _). }
  assert (∀ b, t = type_of_branch b →
            (∃ t', Some t = Some t' ∧ t' ∈ known_types)) as Hknown.
  { intros b ->. eexists. split; [done |].
    apply known_types_branch. by exists b. }
  destruct (decide (t = type_of_branch TradeFlowBranch)) as [->|H1];
    [simpl; split; [lia |]; split; [intros _; by apply (Hknown TradeFlowBranch) | done] |].
  destruct (decide (t = type_of_branch TariffBranch)) as [->|H2];
    [simpl; split; [lia |]; split; [intros _; by apply (Hknown TariffBranch) | done] |].
  destruct (decide (t = type_of_branch MarketSizeBranch)) as [->|H3];
    [simpl; split; [lia |]; split; [intros _; by apply (Hknown MarketSizeBranch) | done] |].
  destruct (decide (t = type_of_branch BuyersBranch)) as [->|H4];
    [simpl; split; [lia |]; split; [intros _; by apply (Hknown BuyersBranch) | done] |].
  destruct (decide (t = type_of_branch CompetitiveLandscapeBranch))
    as [->|H5];
    [simpl; split; [lia |]; split;
       [intros _; by apply (Hknown CompetitiveLandscapeBranch) | done] |].
  simpl in H1, H2, H3, H4, H5.
  rewrite !bool_decide_false by congruence. simpl.
  split; [lia |]. split; [done |].
  intros (t' & [= <-] & [[] ->]%known_types_branch); done.
Qed.

(** An accepted request is answered. *)
Lemma accepted_is_answered (env : Env)
    (params : MarketIntelligenceParams) (w : World) :
  if accepted params then ∃ r w', handle env params w = (Return r, w')
  else True.
Proof.
  pose proof (handle_cases env params w) as Hcases.
  destruct run_branch_table as [table Htable].
  destruct (accepted params); [|done].
  destruct Hcases as (b & _ & Hfirst & ->).
  rewrite (Htable env b params w Hfirst). by eexists _, _.
Qed.

(** X15.  [handle] returns an envelope exactly for the accepted requests:
    those whose discriminant is one of the five literals and which have
    every property their variant requires.  The envelope then has status
    200, no message, completeness [complete] and the clock's reading as
    [last_updated], and the one branch was entered.  Every other request
    makes [handle] throw a [ValidationError] with the request in its
    details. *)
Theorem handle_returns_iff_accepted (env : Env)
    (params : MarketIntelligenceParams) (w : World) :
  (accepted params = true →
   ∃ (b : Branch) (r : ApiResponse MarketIntelligenceData),
     type params = Some (type_of_branch b) ∧
     handle env params w =
       (Return r,
        mkWorld (cache w) (S (ticks w))
          (trace w ++ [BranchEntered b params])) ∧
     status r = 200 ∧ message r = None ∧
     data_completeness (metadata r) = complete ∧
     last_updated (metadata r) = IsoTime (clock env (ticks w))) ∧
  (accepted params = false →
   ∃ text : string,
     thrown (handle env params w) =
       Some (ThrownApiError
               (ValidationError text (Some [("params", DParams params)])))).
Proof.
  pose proof (handle_cases env params w) as Hcases.
  destruct run_branch_table as [table Htable].
  destruct (accepted params).
  - split; [intros _ | done].
    destruct Hcases as (b & Htype & Hfirst & Hrun).
    exists b. eexists. split; [done |]. split.
    + rewrite Hrun. apply (Htable env b params w Hfirst).
    + done.
  - split; [done | intros _].
    destruct Hcases as (text & w' & Hrun & _).
    exists text. by rewrite Hrun.
Qed.

(** X16.  What [handle] answers depends on the variant alone: two requests
    with the same discriminant that are both answered get the same payload,
    source label and confidence score, whatever product, market or other
    values they name and whenever they are made. *)
Theorem handle_answer_by_variant (env env' : Env)
    (p1 p2 : MarketIntelligenceParams) (w1 w1' w2 w2' : World)
    (r1 r2 : ApiResponse MarketIntelligenceData) :
  type p1 = type p2 →
  handle env p1 w1 = (Return r1, w1') →
  handle env' p2 w2 = (Return r2, w2') →
  data r1 = data r2 ∧
  source (metadata r1) = source (metadata r2) ∧
  confidence_score (metadata r1) = confidence_score (metadata r2).
Proof.
  intros Htype Hrun1 Hrun2.
  pose proof (handle_cases env p1 w1) as Hcases1.
  pose proof (handle_cases env' p2 w2) as Hcases2.
  destruct run_branch_table as [table Htable].
  destruct (accepted p1);
    [|destruct Hcases1 as (? & ? & Heq & _); congruence].
  destruct (accepted p2);
    [|destruct Hcases2 as (? & ? & Heq & _); congruence].
  destruct Hcases1 as (b1 & Htype1 & Hfirst1 & Heq1).
  destruct Hcases2 as (b2 & Htype2 & Hfirst2 & Heq2).
  assert (b1 = b2) as <-.
  { apply type_of_branch_inj. congruence. }
  rewrite Heq1, (Htable env b1 p1 w1 Hfirst1) in Hrun1.
  rewrite Heq2, (Htable env' b1 p2 w2 Hfirst2) in Hrun2.
  injection Hrun1 as <- _. injection Hrun2 as <- _. done.
Qed.

Lemma handle_answer_by_variant_sample :
  type Samples.trade_flow_request = type Samples.other_trade_flow_request ∧
  ∃ (r1 r2 : ApiResponse MarketIntelligenceData),
    returned (handle Samples.env Samples.trade_flow_request Samples.start)
      = Some r1 ∧
    returned (handle Samples.slow_env Samples.other_trade_flow_request
                Samples.after_first_call) = Some r2 ∧
    data r1 = data r2.
Proof.
  split; [reflexivity |].
  destruct (handle Samples.env Samples.trade_flow_request Samples.start)
    as [[r1|t1] w1'] eqn:Hrun1; [|vm_compute in Hrun1; discriminate Hrun1].
  destruct (handle Samples.slow_env Samples.other_trade_flow_request
              Samples.after_first_call)
    as [[r2|t2] w2'] eqn:Hrun2; [|vm_compute in Hrun2; discriminate Hrun2].
  exists r1, r2. split; [reflexivity |]. split; [reflexivity |].
  exact (proj1 (handle_answer_by_variant Samples.env Samples.slow_env
                  Samples.trade_flow_request Samples.other_trade_flow_request
                  Samples.start w1' Samples.after_first_call w2' r1 r2
                  eq_refl Hrun1 Hrun2)).
Defined.

(** X17.  [handle] answers from its own constants: whatever the request,
    it leaves the cache of the trade-flow service alone, calls no method of
    the WITS client and sends no request; it reads the clock at most
    once. *)
Theorem handle_touches_nothing (env : Env)
    (params : MarketIntelligenceParams) (w : World) :
  cache (handle env params w).2 = cache w ∧
  requests (trace (handle env params w).2) = requests (trace w) ∧
  wits_calls (trace (handle env params w).2) = wits_calls (trace w) ∧
  (ticks (handle env params w).2 = ticks w ∨
   ticks (handle env params w).2 = S (ticks w)).
Proof.
  pose proof (handle_cases env params w) as Hcases.
  destruct run_branch_table as [table Htable].
  assert (∀ b, requests (trace w ++ [BranchEntered b params])
               = requests (trace w)
             ∧ wits_calls (trace w ++ [BranchEntered b params])
               = wits_calls (trace w)) as Hcount.
  { intros b. rewrite TradeFlowServiceFacts.requests_app,
      TradeFlowServiceFacts.wits_calls_app.
    change (requests [_]) with 0%nat. change (wits_calls [_]) with 0%nat.
    lia. }
  destruct (accepted params).
  - destruct Hcases as (b & _ & Hfirst & ->).
    rewrite (Htable env b params w Hfirst). simpl.
    destruct (Hcount b). auto.
  - destruct Hcases as (text & w' & -> & [->|[b ->]]); simpl.
    + auto.
    + destruct (Hcount b). auto.
Qed.

End HandlerMore.

(** ** The boundary: routes, error conversion and the taxonomy *)

Module BoundaryFacts.

Import ResponseUtils MarketIntelligenceHandler HandlerFacts HandlerMore.
Import ErrorUtils Routes.


(** What the two [GET] routes do: with both parameters given and not
    empty they return the handler's envelope, with status 200; otherwise
    they throw a [ValidationError] without details and change nothing. *)
Lemma get_routes_cases (env : Env) (query : RequestQuery) (w : World) :
  (if truthy_prop (query_product_category query)
      && truthy_prop (query_market query)
   then ∃ r w', market_size_route env query w = (Return r, w') ∧
                status r = 200
   else ∃ text,
          market_size_route env query w =
            (Throw (ThrownApiError (ValidationError text None)), w)) ∧
  (if truthy_prop (query_industry query) && truthy_prop (query_market query)
   then ∃ r w', buyers_route env query w = (Return r, w') ∧ status r = 200
   else ∃ text,
          buyers_route env query w =
            (Throw (ThrownApiError (ValidationError text None)), w)).
Proof.
  destruct run_branch_table as [table Htable].
  split.
  - unfold market_size_route.
    destruct (truthy_prop (query_product_category query)) eqn:Hc; simpl;
      [|by eexists].
    destruct (truthy_prop (query_market query)) eqn:Hm; simpl; [|by eexists].
    apply truthy_prop_true in Hc as (c & Hc & Hcne).
    apply truthy_prop_true in Hm as (m & Hm & Hmne).
    rewrite Hc, Hm. simpl.
    rewrite (handle_known env MarketSizeBranch) by done.
    rewrite Htable.
    + eexists _, _. by split.
    + unfold first_missing, is_missing. simpl.
      apply truthy_true in Hcne as ->. by apply truthy_true in Hmne as ->.
  - unfold buyers_route.
    destruct (truthy_prop (query_industry query)) eqn:Hi; simpl;
      [|by eexists].
    destruct (truthy_prop (query_market query)) eqn:Hm; simpl; [|by eexists].
    apply truthy_prop_true in Hi as (i & Hi & Hine).
    apply truthy_prop_true in Hm as (m & Hm & Hmne).
    rewrite Hi, Hm. simpl.
    rewrite (handle_known env BuyersBranch) by done.
    rewrite Htable.
    + eexists _, _. by split.
    + unfold first_missing, is_missing. simpl.
      apply truthy_true in Hine as ->. by apply truthy_true in Hmne as ->.
Qed.


(** The checks of [POST /] pass exactly for the accepted requests. *)
Lemma prevalidate_cases (params : MarketIntelligenceParams) (w : World) :
  truthy_prop (type params) = true →
  if accepted params then prevalidate params w = (Return tt, w)
  else ∃ text,
    prevalidate params w
      = (Throw (ThrownApiError (ValidationError text None)), w).
Proof.
  intros Htype. unfold accepted, prevalidate.
  destruct (type params) as [t|] eqn:Ht; [|done].
  destruct (decide (t = type_of_branch TradeFlowBranch)) as [->|H1];
    [simpl; unfold first_missing, is_missing; simpl;
     repeat (match goal with
             | |- context [truthy_prop ?x] =>
                 destruct (truthy_prop x) eqn:?; simpl
             end); try done; by eexists |].
  destruct (decide (t = type_of_branch TariffBranch)) as [->|H2];
    [simpl; unfold first_missing, is_missing; simpl;
     repeat (match goal with
             | |- context [truthy_prop ?x] =>
                 destruct (truthy_prop x) eqn:?; simpl
             end); try done; by eexists |].
  destruct (decide (t = type_of_branch MarketSizeBranch)) as [->|H3];
    [simpl; unfold first_missing, is_missing; simpl;
     repeat (match goal with
             | |- context [truthy_prop ?x] =>
                 destruct (truthy_prop x) eqn:?; simpl
             end); try done; by eexists |].
  destruct (decide (t = type_of_branch BuyersBranch)) as [->|H4];
    [simpl; unfold first_missing, is_missing; simpl;
     repeat (match goal with
             | |- context [truthy_prop ?x] =>
                 destruct (truthy_prop x) eqn:?; simpl
             end); try done; by eexists |].
  destruct (decide (t = type_of_branch CompetitiveLandscapeBranch))
    as [->|H5];
    [simpl; unfold first_missing, is_missing; simpl;
     repeat (match goal with
             | |- context [truthy_prop ?x] =>
                 destruct (truthy_prop x) eqn:?; simpl
             end); try done; by eexists |].
  simpl in H1, H2, H3, H4, H5.
  assert (branch_of_type t = None) as ->.
  { destruct (branch_of_type t) as [b|] eqn:Hb; [|done].
    apply branch_of_type_spec in Hb. destruct b; simpl in Hb; congruence. }
  rewrite !bool_decide_false by congruence. by eexists.
Qed.

Lemma unified_route_cases (env : Env) (params : MarketIntelligenceParams)
    (w : World) :
  if accepted params then unified_route env params w = handle env params w
  else ∃ text,
    unified_route env params w
      = (Throw (ThrownApiError (ValidationError text None)), w).
Proof.
  unfold unified_route. destruct (truthy_prop (type params)) eqn:Htype; simpl.
  - pose proof (prevalidate_cases params w Htype) as Hpre.
    unfold mbind, Js_bind. destruct (accepted params).
    + by rewrite Hpre.
    + destruct Hpre as [text ->]. by exists text.
  - assert (accepted params = false) as ->.
    { unfold accepted. destruct (type params) as [t|]; [|done].
      simpl in Htype. apply truthy_false in Htype as ->. reflexivity. }
    by eexists.
Qed.

(** X20.  [POST /] checks a request before it calls the handler, and its
    checks pass exactly for the requests the handler accepts.  An accepted
    request gets what [handle] answers.  Any other request is rejected by
    the route itself with a [ValidationError] without details; the handler
    is not called for it, and nothing changes. *)
Theorem unified_route_prevalidates (env : Env)
    (params : MarketIntelligenceParams) (w : World) :
  (accepted params = true →
   unified_route env params w = handle env params w ∧
   ∃ r w', handle env params w = (Return r, w')) ∧
  (accepted params = false →
   ∃ text : string,
     unified_route env params w =
       (Throw (ThrownApiError (ValidationError text None)), w)).
Proof.
  pose proof (unified_route_cases env params w) as Hroute.
  pose proof (accepted_is_answered env params w) as Hhandle.
  destruct (accepted params).
  - split; [intros _ | done]. by split.
  - split; [done | intros _]. exact Hroute.
Qed.



(** X23.  Across the seven subclasses of [ApiError] the status and the
    error code determine each other and the class: two errors have the same
    status exactly when they have the same code, and exactly when they are
    of the same class.  Every status lies between 400 and 503, and the
    constructor keeps the message and the details it is given. *)
Theorem taxonomy_status_code (c1 c2 : string → option Details → ApiError)
    (m1 m2 : string) (d1 d2 : option Details) :
  c1 ∈ taxonomy → c2 ∈ taxonomy →
  (error_status (c1 m1 d1) = error_status (c2 m2 d2) ↔
   error_code (c1 m1 d1) = error_code (c2 m2 d2)) ∧
  (error_status (c1 m1 d1) = error_status (c2 m2 d2) ↔
   error_class (c1 m1 d1) = error_class (c2 m2 d2)) ∧
  400 ≤ error_status (c1 m1 d1) ≤ 503 ∧
  error_message (c1 m1 d1) = m1 ∧
  error_details (c1 m1 d1) = d1.
Proof.
  unfold taxonomy. rewrite !elem_of_cons, !elem_of_nil.
  intros [->|[->|[->|[->|[->|[->|[->|[]]]]]]]]
         [->|[->|[->|[->|[->|[->|[->|[]]]]]]]];
    simpl; (split; [by split |]); (split; [by split |]);
    (split; [lia |]); done.
Qed.

Lemma taxonomy_status_code_sample :
  ValidationError ∈ taxonomy ∧ ExternalApiError ∈ taxonomy ∧
  (error_status (ValidationError "a" None)
   = error_status (ExternalApiError "b" None) ↔
   error_code (ValidationError "a" None)
   = error_code (ExternalApiError "b" None)).
Proof.
  assert (ValidationError ∈ taxonomy) as H1
    by (unfold taxonomy; rewrite !elem_of_cons; auto 10).
  assert (ExternalApiError ∈ taxonomy) as H2
    by (unfold taxonomy; rewrite !elem_of_cons; auto 10).
  split; [exact H1 |]. split; [exact H2 |].
  exact (proj1 (taxonomy_status_code ValidationError ExternalApiError
                  "a" "b" None None H1 H2)).
Defined.

End BoundaryFacts.
